(** * The ArangoDB input plugin (plugins/inputs/arangodb/arangodb.go)

    A shallow embedding of the plugin's per-endpoint pipeline [gatherURL]
    (login, statistics request, decoding, normalisation, submission to the
    accumulator) and of the fan-out [Gather], and the properties of the
    specification proved or refuted on it.

    The Go standard library (net/url, net/http, encoding/json's scanner,
    strconv) and the network are not part of the plugin: they are the
    fields of the class [Env] and every theorem holds for all of them.  What
    encoding/json does with an already scanned document is fixed by the
    struct declarations of the plugin, and is modelled below. *)

From Stdlib Require Import ZArith NArith Lia Ascii String.
From stdpp Require Import base option list strings gmap.

Local Open Scope string_scope.
Local Open Scope list_scope.

(** ** Go values *)

Abbreviation bytes := (list Byte.byte).

(** [uint32] and [uint64] hold the decoded number; the decoder checks the
    range, the plugin does no arithmetic on them. *)
Abbreviation uint32 := N (only parsing).
Abbreviation uint64 := N (only parsing).

(** A [float32] is kept as its IEEE 754 binary32 bit pattern: the plugin
    only copies such values. *)
Record float32 := F32 { f32_bits : N }.

(** Errors made by library calls. *)
Inductive liberror :=
  | SyntaxError
  | UnmarshalTypeError (gotype : string)
  | OtherError (msg : string).

(** ** JSON documents, as encoding/json's scanner delivers them.
    A number keeps its literal, as in the decoder. *)
#[local] Set Warnings "-register-all".
Inductive json :=
  | JNull
  | JBool (b : bool)
  | JNum (lit : string)
  | JStr (s : string)
  | JArr (items : list json)
  | JObj (members : list (string * json)).

(** ** The struct declarations (lines 19-66) *)

Record http_Client := { Timeout : Z; DisableKeepAlives : bool }.

Record ArangoDB := {
  Urls : list string;
  ResponseTimeout : Z;
  Username : string;
  Password : string;
  client : option http_Client
}.

Record LoginRequest := { lrUsername : string; lrPassword : string }.

Record LoginResponse := { Jwt : string }.

Record ArangoSystem := {
  MajorPageFaults : uint32;
  MinorPageFaults : uint32;
  NumberOfThreads : uint32;
  ResidentSize : float32;
  SystemTime : float32;
  UserTime : float32;
  VirtualSize : uint64
}.

Record ArangoRequestTime := {
  Count : uint32;
  Counts : list uint32;
  Sum : float32
}.

Record ArangoClient := { RequestTime : ArangoRequestTime }.

Record ArangoServer := { PhysicalMemory : uint64; Uptime : float32 }.

Record ArangoStats := {
  Client : ArangoClient;
  Server : ArangoServer;
  System : ArangoSystem
}.

Definition loginPostfix : string := "/_open/auth".
Definition statsPostfix : string := "/_admin/statistics".

(** init (lines 229-233): the plugin as it is registered, with a response
    timeout of three seconds (in nanoseconds) and nothing else set. *)
Definition init_ArangoDB : ArangoDB :=
  {| Urls := []; ResponseTimeout := 3 * 1000000000;
     Username := EmptyString; Password := EmptyString; client := None |}.

(** Zero values, as [LoginResponse{}] and [ArangoStats{}] make them. *)
Definition zero_float32 : float32 := F32 0.
Definition zero_LoginResponse : LoginResponse := {| Jwt := EmptyString |}.
Definition zero_ArangoSystem : ArangoSystem :=
  {| MajorPageFaults := 0; MinorPageFaults := 0; NumberOfThreads := 0;
     ResidentSize := zero_float32; SystemTime := zero_float32;
     UserTime := zero_float32; VirtualSize := 0 |}.
Definition zero_ArangoRequestTime : ArangoRequestTime :=
  {| Count := 0; Counts := []; Sum := zero_float32 |}.
Definition zero_ArangoClient : ArangoClient :=
  {| RequestTime := zero_ArangoRequestTime |}.
Definition zero_ArangoServer : ArangoServer :=
  {| PhysicalMemory := 0; Uptime := zero_float32 |}.
Definition zero_ArangoStats : ArangoStats :=
  {| Client := zero_ArangoClient; Server := zero_ArangoServer;
     System := zero_ArangoSystem |}.

(** ** net/http requests and responses, as far as the plugin touches them *)

Record Request := {
  Method : string;
  RawURL : string;
  Header : gmap string (list string);
  ReqBody : option bytes
}.

(** [Body] is what [ioutil.ReadAll] makes of the response body. *)
Record Response := {
  StatusCode : Z;
  Body : bytes + liberror
}.

(** [Header.Set]: the key [Authorization] is already in canonical form. *)
Definition Header_Set (key value : string) (r : Request) : Request :=
  {| Method := Method r; RawURL := RawURL r;
     Header := <[key := [value]]> (Header r); ReqBody := ReqBody r |}.

(** [Header.Get]: the first value stored under the key, or the empty string. *)
Definition Header_Get (key : string) (r : Request) : string :=
  match Header r !! key with
  | Some (v :: _) => v
  | _ => EmptyString
  end.

(** ** The libraries and the network *)

Class Env := {
  (** [url.URL], [url.Parse] and the method [String] of a URL *)
  URL : Type;
  url_Parse : string → URL + liberror;
  URL_String : URL → string;
  (** [json.Marshal] of the login body *)
  json_Marshal : LoginRequest → bytes + liberror;
  (** [http.NewRequest method url body] *)
  http_NewRequest : string → string → option bytes → Request + liberror;
  (** the method [Do] of [http.Client]: the response pointer and the
      error, as Go returns them; the network answers a request the same
      way throughout a cycle *)
  Client_Do : http_Client → Request → option Response * option liberror;
  (** the syntax check of [json.Unmarshal]: [None] for a syntax error *)
  json_scan : bytes → option json;
  (** [strconv.ParseFloat lit 32]: [None] when out of range *)
  ParseFloat32 : string → option float32;
  (** encoding/json's comparison of a field name with an object key up to
      case *)
  equalFold : string → string → bool
}.

(** ** encoding/json: decoding a scanned document into the plugin's structs

    [json.Unmarshal] first checks the syntax of the whole input and then
    fills the target.  A decoder takes the document and the current value
    of the target; it answers the new value, or the first type error (the
    plugin returns on any error and never reads a partly filled target). *)

Definition decoder (T : Type) : Type := json → T → T + liberror.

(** [strconv.ParseUint lit 10 64] followed by the overflow check of the
    target's width: digits only, value below [2^bitSize]. *)
Definition digit_val (c : ascii) : option N :=
  let n := N_of_ascii c in
  if (48 <=? n)%N && (n <=? 57)%N then Some (n - 48)%N else None.

Fixpoint digits_val (s : string) (acc : N) : option N :=
  match s with
  | EmptyString => Some acc
  | String c s' =>
      match digit_val c with
      | Some d => digits_val s' (10 * acc + d)%N
      | None => None
      end
  end.

Definition ParseUint (lit : string) (bitSize : N) : option N :=
  match lit with
  | EmptyString => None
  | _ =>
      match digits_val lit 0 with
      | Some n => if (n <? 2 ^ bitSize)%N then Some n else None
      | None => None
      end
  end.

Definition dec_string : decoder string := λ v s,
  match v with
  | JStr s' => inl s'
  | JNull => inl s
  | _ => inr (UnmarshalTypeError "string")
  end.

Definition dec_uint (bitSize : N) (gotype : string) : decoder N := λ v n,
  match v with
  | JNum lit =>
      match ParseUint lit bitSize with
      | Some n' => inl n'
      | None => inr (UnmarshalTypeError gotype)
      end
  | JNull => inl n
  | _ => inr (UnmarshalTypeError gotype)
  end.

Definition dec_uint32 : decoder uint32 := dec_uint 32 "uint32".
Definition dec_uint64 : decoder uint64 := dec_uint 64 "uint64".

(** An array is decoded into the slice in place: the element at an index
    into what the backing array of the slice holds there, so that [null]
    leaves that value as it is, and into a zero where the backing array
    ends and new memory begins.  [back] is the backing array from the
    index of the first of [items] on. *)
Fixpoint dec_items {T} (dec : decoder T) (zero : T) (items : list json)
    (back : list T) : list T + liberror :=
  match items with
  | [] => inl []
  | v :: items' =>
      match dec v (hd zero back) with
      | inl x =>
          match dec_items dec zero items' (tl back) with
          | inl xs => inl (x :: xs)
          | inr e => inr e
          end
      | inr e => inr e
      end
  end.

(** A slice while it is decoded into: the elements within its length, and
    what its backing array holds past them.  Those were left there when an
    earlier array cut the slice shorter, and are seen again when a later
    one makes it longer.  After an array the length is the number of its
    elements; an empty array gives a new empty slice, [null] a nil one. *)
Definition dec_slice {T} (dec : decoder T) (zero : T) (gotype : string)
  : decoder (list T * list T) := λ v s,
  match v with
  | JArr [] => inl ([], [])
  | JArr items =>
      match dec_items dec zero items (s.1 ++ s.2) with
      | inl xs => inl (xs, drop (length items) (s.1 ++ s.2))
      | inr e => inr e
      end
  | JNull => inl ([], [])
  | _ => inr (UnmarshalTypeError gotype)
  end.

(** [with_field r mk]: the struct that [mk] rebuilds around a field decoded
    as [r]. *)
Definition with_field {F T} (r : F + liberror) (mk : F → T) : T + liberror :=
  match r with
  | inl x => inl (mk x)
  | inr e => inr e
  end.

Section Plugin.
Context `{Env}.

(** A key selects the field whose name it equals, else the first field
    whose name it equals up to case. *)
Definition find_field (names : list string) (key : string) : option string :=
  match List.find (String.eqb key) names with
  | Some n => Some n
  | None => List.find (λ n, equalFold n key) names
  end.

(** The members of an object are taken in order; a key that selects no
    field is skipped, a repeated key decodes into the field again. *)
Fixpoint dec_members {T} (names : list string)
    (set : string → json → T → T + liberror)
    (members : list (string * json)) (t : T) : T + liberror :=
  match members with
  | [] => inl t
  | (k, v) :: members' =>
      match find_field names k with
      | Some n =>
          match set n v t with
          | inl t' => dec_members names set members' t'
          | inr e => inr e
          end
      | None => dec_members names set members' t
      end
  end.

Definition dec_struct {T} (gotype : string) (names : list string)
    (set : string → json → T → T + liberror) : decoder T := λ v t,
  match v with
  | JObj members => dec_members names set members t
  | JNull => inl t
  | _ => inr (UnmarshalTypeError gotype)
  end.

Definition dec_float32 : decoder float32 := λ v f,
  match v with
  | JNum lit =>
      match ParseFloat32 lit with
      | Some f' => inl f'
      | None => inr (UnmarshalTypeError "float32")
      end
  | JNull => inl f
  | _ => inr (UnmarshalTypeError "float32")
  end.

(** One decoder per struct: the names are the [json] tags, in the order of
    the declaration. *)
Definition dec_LoginResponse : decoder LoginResponse :=
  dec_struct "LoginResponse" ["jwt"] (λ n v t,
    if String.eqb n "jwt" then
      with_field (dec_string v (Jwt t)) (λ x, {| Jwt := x |})
    else inl t).

Definition dec_ArangoSystem : decoder ArangoSystem :=
  dec_struct "ArangoSystem"
    ["majorPageFaults"; "minorPageFaults"; "numberOfThreads"; "residentSize";
     "systemTime"; "userTime"; "virtualSize"] (λ n v t,
    let '{| MajorPageFaults := a; MinorPageFaults := b; NumberOfThreads := c;
            ResidentSize := d; SystemTime := e; UserTime := f;
            VirtualSize := g |} := t in
    if String.eqb n "majorPageFaults" then
      with_field (dec_uint32 v a) (λ x, Build_ArangoSystem x b c d e f g)
    else if String.eqb n "minorPageFaults" then
      with_field (dec_uint32 v b) (λ x, Build_ArangoSystem a x c d e f g)
    else if String.eqb n "numberOfThreads" then
      with_field (dec_uint32 v c) (λ x, Build_ArangoSystem a b x d e f g)
    else if String.eqb n "residentSize" then
      with_field (dec_float32 v d) (λ x, Build_ArangoSystem a b c x e f g)
    else if String.eqb n "systemTime" then
      with_field (dec_float32 v e) (λ x, Build_ArangoSystem a b c d x f g)
    else if String.eqb n "userTime" then
      with_field (dec_float32 v f) (λ x, Build_ArangoSystem a b c d e x g)
    else if String.eqb n "virtualSize" then
      with_field (dec_uint64 v g) (λ x, Build_ArangoSystem a b c d e f x)
    else inl t).

(** The structs that hold the slice of the bucket counts are decoded
    together with what the backing array of [Counts] holds past its
    length. *)
Definition dec_ArangoRequestTime_in
  : decoder (ArangoRequestTime * list uint32) :=
  dec_struct "ArangoRequestTime" ["requestTime"; "counts"; "sum"] (λ n v ts,
    let '({| Count := a; Counts := b; Sum := c |}, spare) := ts in
    if String.eqb n "requestTime" then
      with_field (dec_uint32 v a) (λ x, (Build_ArangoRequestTime x b c, spare))
    else if String.eqb n "counts" then
      with_field (dec_slice dec_uint32 0%N "[]uint32" v (b, spare))
                 (λ x, (Build_ArangoRequestTime a x.1 c, x.2))
    else if String.eqb n "sum" then
      with_field (dec_float32 v c) (λ x, (Build_ArangoRequestTime a b x, spare))
    else inl ts).

Definition dec_ArangoClient_in : decoder (ArangoClient * list uint32) :=
  dec_struct "ArangoClient" ["requestTime"] (λ n v ts,
    if String.eqb n "requestTime" then
      with_field (dec_ArangoRequestTime_in v (RequestTime ts.1, ts.2))
                 (λ x, ({| RequestTime := x.1 |}, x.2))
    else inl ts).

Definition dec_ArangoServer : decoder ArangoServer :=
  dec_struct "ArangoServer" ["physicalMemory"; "uptime"] (λ n v t,
    let '{| PhysicalMemory := a; Uptime := b |} := t in
    if String.eqb n "physicalMemory" then
      with_field (dec_uint64 v a) (λ x, Build_ArangoServer x b)
    else if String.eqb n "uptime" then
      with_field (dec_float32 v b) (λ x, Build_ArangoServer a x)
    else inl t).

Definition dec_ArangoStats_in : decoder (ArangoStats * list uint32) :=
  dec_struct "ArangoStats" ["client"; "server"; "system"] (λ n v ts,
    let '({| Client := a; Server := b; System := c |}, spare) := ts in
    if String.eqb n "client" then
      with_field (dec_ArangoClient_in v (a, spare))
                 (λ x, (Build_ArangoStats x.1 b c, x.2))
    else if String.eqb n "server" then
      with_field (dec_ArangoServer v b) (λ x, (Build_ArangoStats a x c, spare))
    else if String.eqb n "system" then
      with_field (dec_ArangoSystem v c) (λ x, (Build_ArangoStats a b x, spare))
    else inl ts).

(** Decoding into a struct whose slice has a backing array that holds
    nothing past its length, as that of a zero value. *)
Definition without_spare {T} (dec : decoder (T * list uint32)) : decoder T :=
  λ v t,
  match dec v (t, []) with
  | inl ts => inl ts.1
  | inr e => inr e
  end.

Definition dec_ArangoRequestTime : decoder ArangoRequestTime :=
  without_spare dec_ArangoRequestTime_in.

Definition dec_ArangoStats : decoder ArangoStats :=
  without_spare dec_ArangoStats_in.

(** [json.Unmarshal data &t] *)
Definition json_Unmarshal {T} (dec : decoder T) (data : bytes) (t : T)
  : T + liberror :=
  match json_scan data with
  | None => inr SyntaxError
  | Some v => dec v t
  end.

(** ** Errors, panics and observable events of the plugin *)

(** The values of Go's [error] that [gatherURL] returns: a library error
    passed on ([return err]) or one made by [fmt.Errorf] from its format and
    arguments. *)
Inductive error :=
  | Lib (e : liberror)
  | Errorf_s (format : string) (e : liberror)
  | Errorf_ss (format : string) (u : URL) (e : liberror).

Inductive panic :=
  | NilDereference
  | IndexOutOfRange (i len : nat).

(** Field values are [interface{}] holding one of three types. *)
Inductive value :=
  | VUint32 (n : uint32)
  | VUint64 (n : uint64)
  | VFloat32 (f : float32).

(** What a cycle does to the outside: requests given to the HTTP client,
    calls of the accumulator, lines written with [log.Printf]. *)
Inductive event :=
  | HTTP_Do (req : Request)
  | AddFields (measurement : string) (fields : gmap string value)
              (tags : gmap string string)
  | AddError (err : option error)
  | Log_Printf (format : string) (u : string) (err : liberror).

(** A statement either goes on with a value, makes the function return an
    [error] value ([None] is nil), or panics; the events made so far are
    kept in every case. *)
Inductive flow (A : Type) :=
  | Next (a : A)
  | Return (err : option error)
  | Panic (p : panic).
Global Arguments Next {A} a.
Global Arguments Return {A} err.
Global Arguments Panic {A} p.

Definition M (A : Type) : Type := list event * flow A.

Definition ret {A} (a : A) : M A := ([], Next a).
Definition bind {A B} (m : M A) (k : A → M B) : M B :=
  match m with
  | (w, Next a) => let '(w', r) := k a in (w ++ w', r)
  | (w, Return e) => (w, Return e)
  | (w, Panic p) => (w, Panic p)
  end.
Definition emit (e : event) : M unit := ([e], Next tt).
Definition return_ {A} (err : option error) : M A := ([], Return err).
Definition panics {A} (p : panic) : M A := ([], Panic p).

Notation "x <- m ;; k" := (bind m (λ x, k))
  (at level 100, m at next level, right associativity,
   format "x  <-  m  ;;  '/' k").
Notation "m ;;; k" := (bind m (λ _, k))
  (at level 100, right associativity, format "m  ;;;  '/' k").

(** [v, err := f(..); if err != nil { return err }] *)
Definition check {A} (r : A + liberror) : M A :=
  match r with
  | inl a => ret a
  | inr e => return_ (Some (Lib e))
  end.

(** Going through a pointer: nil panics. *)
Definition deref {A} (ptr : option A) : M A :=
  match ptr with
  | Some a => ret a
  | None => panics NilDereference
  end.

(** [s[i]] on a slice *)
Definition index {A} (s : list A) (i : nat) : M A :=
  match s !! i with
  | Some a => ret a
  | None => panics (IndexOutOfRange i (length s))
  end.

(** How a call of a function returning [error] ends. *)
Inductive exit :=
  | Returns (err : option error)
  | Panics (p : panic).

Definition finish (m : M False) : list event * exit :=
  match m with
  | (w, Next a) => match a with end
  | (w, Return e) => (w, Returns e)
  | (w, Panic p) => (w, Panics p)
  end.

(** ** createHttpClient (lines 90-100) *)
Definition createHttpClient (p : ArangoDB) : http_Client * option error :=
  let client := {| DisableKeepAlives := true; Timeout := ResponseTimeout p |} in
  (client, None).

(** [p.client.Do(req)]: the request is handed to the client, first and
    second result come back as they are. *)
Definition client_Do (p : ArangoDB) (req : Request)
  : M (option Response * option liberror) :=
  c <- deref (client p) ;;
  emit (HTTP_Do req) ;;;
  ret (Client_Do c req).

(** ** The three field maps (lines 163-184) *)

Definition systemFields (stats : ArangoStats) : gmap string value :=
  let systemFields : gmap string value := ∅ in
  let systemFields := <["majorPageFaults" := VUint32 (MajorPageFaults (System stats))]> systemFields in
  let systemFields := <["minorPageFaults" := VUint32 (MinorPageFaults (System stats))]> systemFields in
  let systemFields := <["numberOfThreads" := VUint32 (NumberOfThreads (System stats))]> systemFields in
  let systemFields := <["residentSize" := VFloat32 (ResidentSize (System stats))]> systemFields in
  let systemFields := <["systemTime" := VFloat32 (SystemTime (System stats))]> systemFields in
  let systemFields := <["userTime" := VFloat32 (UserTime (System stats))]> systemFields in
  let systemFields := <["virtualSize" := VUint64 (VirtualSize (System stats))]> systemFields in
  systemFields.

Definition serverFields (stats : ArangoStats) : gmap string value :=
  let serverFields : gmap string value := ∅ in
  let serverFields := <["physicalMemory" := VUint64 (PhysicalMemory (Server stats))]> serverFields in
  let serverFields := <["uptime" := VFloat32 (Uptime (Server stats))]> serverFields in
  serverFields.

Definition clientFields (stats : ArangoStats) : M (gmap string value) :=
  let rt := RequestTime (Client stats) in
  let clientFields : gmap string value := ∅ in
  c0 <- index (Counts rt) 0 ;;
  let clientFields := <["req_0.01" := VUint32 c0]> clientFields in
  c1 <- index (Counts rt) 1 ;;
  let clientFields := <["req_0.05" := VUint32 c1]> clientFields in
  c2 <- index (Counts rt) 2 ;;
  let clientFields := <["req_0.1" := VUint32 c2]> clientFields in
  c3 <- index (Counts rt) 3 ;;
  let clientFields := <["req_0.2" := VUint32 c3]> clientFields in
  c4 <- index (Counts rt) 4 ;;
  let clientFields := <["req_0.5" := VUint32 c4]> clientFields in
  c5 <- index (Counts rt) 5 ;;
  let clientFields := <["req_1" := VUint32 c5]> clientFields in
  let clientFields := <["count" := VUint32 (Count rt)]> clientFields in
  let clientFields := <["sum" := VFloat32 (Sum rt)]> clientFields in
  ret clientFields.

(** ** gatherURL (lines 102-192)

    The deferred [Body.Close()] calls have no effect the model observes and
    are left out, except that evaluating [statsResponse.Body] for the
    second one goes through the pointer. *)

(** The two results of a call, value and error.  After an error the
    plugin does not read the value; the model puts [unread] there. *)
Definition results {A} (r : A + liberror) (unread : A) : A * option liberror :=
  match r with
  | inl a => (a, None)
  | inr e => (unread, Some e)
  end.

Definition gatherURL (p : ArangoDB) (u : URL) : list event * exit :=
  finish (
    (* 105-109 *)
    let loginBody := {| lrUsername := Username p; lrPassword := Password p |} in
    loginBodyJson <- check (json_Marshal loginBody) ;;
    (* 111-114 *)
    loginReq <- check (http_NewRequest "POST" (URL_String u +:+ loginPostfix)
                                       (Some loginBodyJson)) ;;
    (* 116-120 *)
    tokenRequest_err <- client_Do p loginReq ;;
    let '(tokenRequest, err) := tokenRequest_err in
    match err with
    | Some e =>
        return_ (Some (Errorf_ss "error making HTTP Login request to %s: %s" u e))
    | None =>
    tokenRequest <- deref tokenRequest ;;
    (* 122-125 *)
    let '(body, err) := results (Body tokenRequest) [] in
    match err with
    | Some e => return_ (Some (Errorf_s "error reading token body: %s" e))
    | None =>
    (* 127-132 *)
    let '(jwtToken, err) :=
      results (json_Unmarshal dec_LoginResponse body zero_LoginResponse)
              zero_LoginResponse in
    match err with
    | Some e => return_ (Some (Lib e))
    | None =>
    (* 137-138: the error of NewRequest is dropped, a failure leaves nil *)
    statsReq <- deref (match http_NewRequest "GET" (URL_String u +:+ statsPostfix) None with
                       | inl r => Some r
                       | inr _ => None
                       end) ;;
    let statsReq := Header_Set "Authorization" ("Bearer " +:+ Jwt jwtToken) statsReq in
    (* 140: the error of Do is dropped, [err] keeps the value of line 128 *)
    statsResponse_ <- client_Do p statsReq ;;
    let '(statsResponse, _) := statsResponse_ in
    (* 142-144 *)
    match err with
    | Some e =>
        return_ (Some (Errorf_ss "error making HTTP Stats request to %s: %s" u e))
    | None =>
    (* 145 *)
    statsResponse <- deref statsResponse ;;
    (* 147-150 *)
    let '(body, err) := results (Body statsResponse) [] in
    match err with
    | Some e => return_ (Some (Errorf_s "error reading stats body: %s" e))
    | None =>
    (* 153-157 *)
    stats <- check (json_Unmarshal dec_ArangoStats body zero_ArangoStats) ;;
    (* 160-161 *)
    let tags : gmap string string := <["url" := URL_String u]> ∅ in
    (* 163-184 *)
    let systemFields := systemFields stats in
    let serverFields := serverFields stats in
    clientFields <- clientFields stats ;;
    (* 187-189 *)
    emit (AddFields "arangodb_system" systemFields tags) ;;;
    emit (AddFields "arangodb_server" serverFields tags) ;;;
    emit (AddFields "arangodb_client" clientFields tags) ;;;
    (* 191 *)
    return_ None
    end end end end end).

(** *** The parts of gatherURL

    The properties speak of the login exchange (lines 105-132) and of the
    statistics request (lines 137-157) on their own; [gatherURL_by_parts]
    puts them together again, and is [gatherURL] (lemma [gatherURL_parts]
    below). *)

Definition login (p : ArangoDB) (u : URL) : M LoginResponse :=
  let loginBody := {| lrUsername := Username p; lrPassword := Password p |} in
  loginBodyJson <- check (json_Marshal loginBody) ;;
  loginReq <- check (http_NewRequest "POST" (URL_String u +:+ loginPostfix)
                                     (Some loginBodyJson)) ;;
  tokenRequest_err <- client_Do p loginReq ;;
  let '(tokenRequest, err) := tokenRequest_err in
  match err with
  | Some e =>
      return_ (Some (Errorf_ss "error making HTTP Login request to %s: %s" u e))
  | None =>
  tokenRequest <- deref tokenRequest ;;
  match Body tokenRequest with
  | inr e => return_ (Some (Errorf_s "error reading token body: %s" e))
  | inl body =>
  check (json_Unmarshal dec_LoginResponse body zero_LoginResponse)
  end end.

Definition statsRequest (u : URL) (jwtToken : LoginResponse) : M Request :=
  statsReq <- deref (match http_NewRequest "GET" (URL_String u +:+ statsPostfix) None with
                     | inl r => Some r
                     | inr _ => None
                     end) ;;
  ret (Header_Set "Authorization" ("Bearer " +:+ Jwt jwtToken) statsReq).

Definition fetchStats (p : ArangoDB) (u : URL) (jwtToken : LoginResponse)
  : M ArangoStats :=
  statsReq <- statsRequest u jwtToken ;;
  statsResponse_ <- client_Do p statsReq ;;
  let '(statsResponse, _) := statsResponse_ in
  statsResponse <- deref statsResponse ;;
  match Body statsResponse with
  | inr e => return_ (Some (Errorf_s "error reading stats body: %s" e))
  | inl body =>
  check (json_Unmarshal dec_ArangoStats body zero_ArangoStats)
  end.

Definition gatherURL_by_parts (p : ArangoDB) (u : URL) : list event * exit :=
  finish (
    jwtToken <- login p u ;;
    stats <- fetchStats p u jwtToken ;;
    let tags : gmap string string := <["url" := URL_String u]> ∅ in
    let systemFields := systemFields stats in
    let serverFields := serverFields stats in
    clientFields <- clientFields stats ;;
    emit (AddFields "arangodb_system" systemFields tags) ;;;
    emit (AddFields "arangodb_server" serverFields tags) ;;;
    emit (AddFields "arangodb_client" clientFields tags) ;;;
    return_ None).

(** The records among some events: the calls of [AddFields], in order. *)
Definition records (w : list event)
  : list (string * gmap string value * gmap string string) :=
  omap (λ e, match e with
             | AddFields name fields tags => Some (name, fields, tags)
             | _ => None
             end) w.

(** ** Gather (lines 194-226) *)

(** The first loop (lines 204-213): [allURLs] grows by the URLs that parse,
    the others are logged and skipped. *)
Fixpoint parse_loop (urls : list string) (allURLs : list URL)
  : list event * list URL :=
  match urls with
  | [] => ([], allURLs)
  | u :: urls' =>
      match url_Parse u with
      | inr err =>
          let '(w, all) := parse_loop urls' allURLs in
          (Log_Printf "arangodb: Could not parse %s, skipping. Error: %s" u err :: w,
           all)
      | inl URL => parse_loop urls' (allURLs ++ [URL])
      end
  end.

(** A goroutine of the second loop (lines 218-221): the events it has made,
    those it has yet to make, and whether after the last of them its
    function returns or panics.  In both cases the deferred [wg.Done()] of
    line 219 then runs; a panic goes on from there to the runtime, since
    nothing recovers it. *)
Record goroutine := {
  made : list event;
  todo : list event;
  ending : option panic
}.

Definition go (p : ArangoDB) (serviceURL : URL) : goroutine :=
  match gatherURL p serviceURL with
  | (w, Returns err) => {| made := []; todo := w ++ [AddError err]; ending := None |}
  | (w, Panics x) => {| made := []; todo := w; ending := Some x |}
  end.

(** The goroutines run interleaved: a step lets one of them make its next
    event, which is also appended to the events of the whole cycle. *)
Record cycle := {
  pool : list goroutine;
  trace : list event
}.

Inductive step : cycle → cycle → Prop :=
  | step_event (c : cycle) (i : nat) (g : goroutine) (e : event) (rest : list event) :
      pool c !! i = Some g →
      todo g = e :: rest →
      step c {| pool := <[i := {| made := made g ++ [e]; todo := rest;
                                  ending := ending g |}]> (pool c);
                trace := trace c ++ [e] |}.

(** A goroutine that has made its last event has come to its end, by
    return or by panic, and runs its deferred [wg.Done()]. *)
Definition ended (g : goroutine) : Prop := todo g = [].

(** How a call of [Gather] ends: it returns, or the panic of a goroutine
    ends the process before it has returned. *)
Inductive cycle_end :=
  | Returned (err : option error)
  | Crashed (x : panic).

(** [runs c c' r]: from [c] the cycle can go on to [c'] and end there as
    [r].  [wg.Wait()] lets [Gather] return nil once every goroutine has run
    its deferred [wg.Done()], those that panicked too: the runtime ends
    the process for a panic only after the deferred calls of the goroutine
    have run, and [Gather] may have returned by then.  A goroutine that
    has reached its panic can at any moment from then on crash the
    process. *)
Inductive runs : cycle → cycle → cycle_end → Prop :=
  | runs_wait (c : cycle) :
      Forall ended (pool c) → runs c c (Returned None)
  | runs_crash (c : cycle) (g : goroutine) (x : panic) :
      g ∈ pool c → todo g = [] → ending g = Some x →
      runs c c (Crashed x)
  | runs_step (c c' c'' : cycle) (r : cycle_end) :
      step c c' → runs c' c'' r → runs c c'' r.

Definition set_client (p : ArangoDB) (c : http_Client) : ArangoDB :=
  {| Urls := Urls p; ResponseTimeout := ResponseTimeout p;
     Username := Username p; Password := Password p; client := Some c |}.

(** The cycle as the two loops have set it up, or the error returned
    before them. *)
Definition Gather_launch (p : ArangoDB) : error + cycle :=
  let '(client, err) := createHttpClient p in
  match err with
  | Some e => inl e
  | None =>
      let p := set_client p client in
      let '(logged, allURLs) := parse_loop (Urls p) [] in
      inr {| pool := go p <$> allURLs; trace := logged |}
  end.

(** [Gather p c r]: a call of [Gather] can end as [r], the goroutines and
    the events then being those of [c]. *)
Definition Gather (p : ArangoDB) (c : cycle) (r : cycle_end) : Prop :=
  match Gather_launch p with
  | inl e => c = {| pool := []; trace := [] |} ∧ r = Returned (Some e)
  | inr c0 => runs c0 c r
  end.

(** Two schedules, for running the model.  In both the goroutines run one
    after the other, in the order of their launch.  In the first the
    runtime ends the process as soon as a goroutine has panicked; in the
    second [Gather] returns before the runtime has ended the process. *)
Definition run_to_end (g : goroutine) : goroutine :=
  {| made := made g ++ todo g; todo := []; ending := ending g |}.

Fixpoint run_in_order (before gs : list goroutine) (t : list event)
  : cycle * cycle_end :=
  match gs with
  | [] => ({| pool := before; trace := t |}, Returned None)
  | g :: gs' =>
      match ending g with
      | Some x =>
          ({| pool := before ++ run_to_end g :: gs'; trace := t ++ todo g |},
           Crashed x)
      | None => run_in_order (before ++ [run_to_end g]) gs' (t ++ todo g)
      end
  end.

Definition Gather_in_order (p : ArangoDB) : cycle * cycle_end :=
  match Gather_launch p with
  | inl e => ({| pool := []; trace := [] |}, Returned (Some e))
  | inr c => run_in_order [] (pool c) (trace c)
  end.

Definition run_all (gs : list goroutine) (t : list event) : cycle * cycle_end :=
  ({| pool := run_to_end <$> gs; trace := t ++ concat (todo <$> gs) |},
   Returned None).

Definition Gather_to_return (p : ArangoDB) : cycle * cycle_end :=
  match Gather_launch p with
  | inl e => ({| pool := []; trace := [] |}, Returned (Some e))
  | inr c => run_all (pool c) (trace c)
  end.

(** ** Vocabulary of the properties *)

(** The login request was made and answered: [c] is the client, [loginReq]
    the request and [resp] the response that [Do] returned without error. *)
Definition login_answered (p : ArangoDB) (u : URL) (c : http_Client)
    (loginReq : Request) (resp : Response) : Prop :=
  ∃ loginBodyJson,
    client p = Some c ∧
    json_Marshal {| lrUsername := Username p; lrPassword := Password p |}
      = inl loginBodyJson ∧
    http_NewRequest "POST" (URL_String u +:+ loginPostfix) (Some loginBodyJson)
      = inl loginReq ∧
    Client_Do c loginReq = (Some resp, None).

(** The login exchange gives the token: the login request was answered,
    the body of the response was read and decoded to [jwtToken]. *)
Definition login_gives (p : ArangoDB) (u : URL) (c : http_Client)
    (loginReq : Request) (jwtToken : LoginResponse) : Prop :=
  ∃ resp body,
    login_answered p u c loginReq resp ∧
    Body resp = inl body ∧
    json_Unmarshal dec_LoginResponse body zero_LoginResponse = inl jwtToken.

(** An event that is a request given to the HTTP client. *)
Definition is_request (e : event) : Prop :=
  match e with HTTP_Do _ => True | _ => False end.

(** What a goroutine does in all, and a goroutine further on in the same
    script. *)
Definition script (g : goroutine) : list event := made g ++ todo g.

Definition advanced (g g' : goroutine) : Prop :=
  script g' = script g ∧ ending g' = ending g ∧ made g `prefix_of` made g'.

(** A goroutine of the cycle has panicked with [x]: the process is about
    to end, whether [Gather] has returned or not. *)
Definition dying (c : cycle) (x : panic) : Prop :=
  ∃ g, g ∈ pool c ∧ todo g = [] ∧ ending g = Some x.

(** The outcome of one string of the URL list in the first loop. *)
Definition parsed (s : string) : option URL :=
  match url_Parse s with
  | inl u => Some u
  | inr _ => None
  end.

Definition skipped (s : string) : option event :=
  match url_Parse s with
  | inl _ => None
  | inr err =>
      Some (Log_Printf "arangodb: Could not parse %s, skipping. Error: %s" s err)
  end.

(** The plugin with another URL list. *)
Definition set_urls (p : ArangoDB) (urls : list string) : ArangoDB :=
  {| Urls := urls; ResponseTimeout := ResponseTimeout p;
     Username := Username p; Password := Password p; client := client p |}.

(** All the events of the goroutine of one URL: those of the fetch, and
    the call of [AddError] when the fetch returns. *)
Definition fetch_events (p : ArangoDB) (u : URL) : list event :=
  (gatherURL p u).1 ++
  match (gatherURL p u).2 with
  | Returns err => [AddError err]
  | Panics _ => []
  end.

(** [interleaved ls t]: the lists [ls] grew from empty lists one element at
    a time, each element being put at the end of one of them and at the end
    of [t]: [t] holds the elements of [ls], those of each list in the order
    of that list. *)
Inductive interleaved {A} : list (list A) → list A → Prop :=
  | interleaved_start (ls : list (list A)) :
      Forall (λ l, l = []) ls → interleaved ls []
  | interleaved_snoc (ls : list (list A)) (i : nat) (l : list A) (x : A)
                     (t : list A) :
      ls !! i = Some l → interleaved ls t →
      interleaved (<[i := l ++ [x]]> ls) (t ++ [x]).

(** The exits of [gatherURL] that the source can reach. *)
Definition reachable_exit (u : URL) (r : exit) : Prop :=
  r = Returns None ∨
  (∃ e, r = Returns (Some (Lib e))) ∨
  (∃ e, r = Returns (Some (Errorf_ss "error making HTTP Login request to %s: %s" u e))) ∨
  (∃ e, r = Returns (Some (Errorf_s "error reading token body: %s" e))) ∨
  (∃ e, r = Returns (Some (Errorf_s "error reading stats body: %s" e))) ∨
  r = Panics NilDereference ∨
  (∃ n, n < 6 ∧ r = Panics (IndexOutOfRange n n)).

End Plugin.

(** ** A concrete environment

    Seven servers, used to run the model on concrete cycles.  Documents are
    served in their JSON text; the scanner knows the documents served. *)
Module Demo.

Definition quote : string := String "034"%char EmptyString.

Fixpoint print (j : json) : string :=
  match j with
  | JNull => "null"
  | JBool b => if b then "true" else "false"
  | JNum lit => lit
  | JStr s => quote +:+ s +:+ quote
  | JArr items =>
      "[" +:+ (fix items_ (l : list json) : string :=
                 match l with
                 | [] => EmptyString
                 | [x] => print x
                 | x :: l' => print x +:+ "," +:+ items_ l'
                 end) items +:+ "]"
  | JObj members =>
      "{" +:+ (fix members_ (l : list (string * json)) : string :=
                 match l with
                 | [] => EmptyString
                 | [(k, v)] => quote +:+ k +:+ quote +:+ ":" +:+ print v
                 | (k, v) :: l' =>
                     quote +:+ k +:+ quote +:+ ":" +:+ print v +:+ "," +:+ members_ l'
                 end) members +:+ "}"
  end.

Definition text (j : json) : bytes := list_byte_of_string (print j).

Definition tokenDoc (tok : string) : json := JObj [("jwt", JStr tok)].

Definition statsDoc (counts : list json) : json :=
  JObj [("system", JObj [("majorPageFaults", JNum "5");
                         ("minorPageFaults", JNum "7");
                         ("numberOfThreads", JNum "12");
                         ("residentSize", JNum "3.5");
                         ("systemTime", JNum "3.5");
                         ("userTime", JNum "7.2");
                         ("virtualSize", JNum "4294967296")]);
        ("server", JObj [("physicalMemory", JNum "1024");
                         ("uptime", JNum "3.5")]);
        ("client", JObj [("requestTime",
                          JObj [("requestTime", JNum "10");
                                ("counts", JArr counts);
                                ("sum", JNum "7.2")])])].

Definition sixCounts : list json :=
  [JNum "1"; JNum "2"; JNum "3"; JNum "4"; JNum "5"; JNum "6"].

Definition docs : list json :=
  [tokenDoc "tok/A+1=="; tokenDoc "tokB"; tokenDoc "t-403"; JObj [];
   statsDoc sixCounts; statsDoc [JNum "1"; JNum "2"]].

Definition scan (data : bytes) : option json :=
  List.find (λ j, String.eqb (print j) (string_of_list_byte data)) docs.

Definition is_control (c : ascii) : bool :=
  let n := N_of_ascii c in (n <? 32)%N || (n =? 127)%N.

Fixpoint has_control (s : string) : bool :=
  match s with
  | EmptyString => false
  | String c s' => is_control c || has_control s'
  end.

Definition Parse (s : string) : string + liberror :=
  if has_control s then inr (OtherError "invalid control character in URL")
  else inl s.

Definition NewRequest (method url : string) (body : option bytes)
  : Request + liberror :=
  match Parse url with
  | inl _ => inl {| Method := method; RawURL := url; Header := ∅; ReqBody := body |}
  | inr e => inr e
  end.

Definition Marshal (l : LoginRequest) : bytes + liberror :=
  inl (text (JObj [("username", JStr (lrUsername l));
                   ("password", JStr (lrPassword l))])).

Definition served (status : Z) (doc : json) : option Response * option liberror :=
  (Some {| StatusCode := status; Body := inl (text doc) |}, None).

Definition refused : option Response * option liberror :=
  (None, Some (OtherError "connection refused")).

(** a: healthy.  b: logs in, then refuses the statistics request.
    c: refuses the login.  d: answers the login with status 403 and a
    token.  e: answers the login with a page that is not JSON.
    f: answers the login with an empty object.  g: serves two buckets. *)
Definition Do (c : http_Client) (req : Request) : option Response * option liberror :=
  let url := RawURL req in
  if String.eqb url "http://a:8529/_open/auth" then served 200 (tokenDoc "tok/A+1==")
  else if String.eqb url "http://a:8529/_admin/statistics" then served 200 (statsDoc sixCounts)
  else if String.eqb url "http://b:8529/_open/auth" then served 200 (tokenDoc "tokB")
  else if String.eqb url "http://b:8529/_admin/statistics" then refused
  else if String.eqb url "http://d:8529/_open/auth" then served 403 (tokenDoc "t-403")
  else if String.eqb url "http://d:8529/_admin/statistics" then served 200 (statsDoc sixCounts)
  else if String.eqb url "http://e:8529/_open/auth" then
    (Some {| StatusCode := 200; Body := inl (list_byte_of_string "<html>") |}, None)
  else if String.eqb url "http://f:8529/_open/auth" then served 200 (JObj [])
  else if String.eqb url "http://f:8529/_admin/statistics" then served 200 (statsDoc sixCounts)
  else if String.eqb url "http://g:8529/_open/auth" then served 200 (tokenDoc "tokB")
  else if String.eqb url "http://g:8529/_admin/statistics" then
    served 200 (statsDoc [JNum "1"; JNum "2"])
  else refused.

(** 7.2 and 3.5 as binary32: 0x40E66666 and 0x40600000. *)
Definition f32_7_2 : float32 := F32 1088841318.
Definition f32_3_5 : float32 := F32 1080033280.

Definition ParseFloat (lit : string) : option float32 :=
  if String.eqb lit "7.2" then Some f32_7_2
  else if String.eqb lit "3.5" then Some f32_3_5
  else if String.eqb lit "0" then Some zero_float32
  else None.

(** Equality up to the case of ASCII letters. *)
Definition fold_ascii (c : ascii) : ascii :=
  let n := N_of_ascii c in
  if (65 <=? n)%N && (n <=? 90)%N then ascii_of_N (n + 32) else c.

Fixpoint fold_string (s : string) : string :=
  match s with
  | EmptyString => EmptyString
  | String c s' => String (fold_ascii c) (fold_string s')
  end.

Definition EqualFold (a b : string) : bool :=
  String.eqb (fold_string a) (fold_string b).

#[export] Instance env : Env := {|
  URL := string;
  url_Parse := Parse;
  URL_String := λ u, u;
  json_Marshal := Marshal;
  http_NewRequest := NewRequest;
  Client_Do := Do;
  json_scan := scan;
  ParseFloat32 := ParseFloat;
  equalFold := EqualFold
|}.

(** A string as a URL of this environment. *)
Definition url (s : string) : @URL env := s.

Definition config (urls : list string) : ArangoDB :=
  {| Urls := urls; ResponseTimeout := 3000000000;
     Username := "root"; Password := "root"; client := None |}.

Definition client0 : http_Client := (createHttpClient (config [])).1.

Definition ready (urls : list string) : ArangoDB :=
  set_client (config urls) client0.

(** The requests the plugin makes for the server at [base], as
    [NewRequest] builds them. *)
Definition loginReq (base : string) : Request :=
  {| Method := "POST"; RawURL := base +:+ loginPostfix; Header := ∅;
     ReqBody := Some (text (JObj [("username", JStr "root");
                                  ("password", JStr "root")])) |}.

Definition statsReq (base : string) : Request :=
  {| Method := "GET"; RawURL := base +:+ statsPostfix; Header := ∅;
     ReqBody := None |}.

Definition badURL : string := "http://h" +:+ String "010"%char ":8529".

End Demo.

(** A second environment: the servers of [Demo], and four more.
    k: answers the login, but its body cannot be read.  l: logs in, then
    redirects the statistics request without end, so that the client hands
    back the last response, its body closed, together with an error.
    m: logs in, then serves a page that is not JSON.  n: logs in, then
    serves the statistics with status 503. *)
Module Demo2.

Definition unreadable (status : Z) (e : string) : Response :=
  {| StatusCode := status; Body := inr (OtherError e) |}.

Definition Do (c : http_Client) (req : Request) : option Response * option liberror :=
  let url := RawURL req in
  if String.eqb url "http://k:8529/_open/auth" then
    (Some (unreadable 200 "unexpected EOF"), None)
  else if String.eqb url "http://l:8529/_open/auth" then
    Demo.served 200 (Demo.tokenDoc "tokB")
  else if String.eqb url "http://l:8529/_admin/statistics" then
    (Some (unreadable 302 "http: read on closed response body"),
     Some (OtherError "stopped after 10 redirects"))
  else if String.eqb url "http://m:8529/_open/auth" then
    Demo.served 200 (Demo.tokenDoc "tokB")
  else if String.eqb url "http://m:8529/_admin/statistics" then
    (Some {| StatusCode := 200; Body := inl (list_byte_of_string "<html>") |}, None)
  else if String.eqb url "http://n:8529/_open/auth" then
    Demo.served 200 (Demo.tokenDoc "tokB")
  else if String.eqb url "http://n:8529/_admin/statistics" then
    Demo.served 503 (Demo.statsDoc Demo.sixCounts)
  else Demo.Do c req.

#[export] Instance env : Env := {|
  URL := string;
  url_Parse := Demo.Parse;
  URL_String := λ u, u;
  json_Marshal := Demo.Marshal;
  http_NewRequest := Demo.NewRequest;
  Client_Do := Do;
  json_scan := Demo.scan;
  ParseFloat32 := Demo.ParseFloat;
  equalFold := Demo.EqualFold
|}.

(** A string as a URL of this environment. *)
Definition url (s : string) : @URL env := s.

End Demo2.

(** * Properties *)

Section Properties.
Context `{Env}.

(** ** Records *)

Lemma records_app (w1 w2 : list event) :
  records (w1 ++ w2) = records w1 ++ records w2.
Proof. apply omap_app. Qed.

(** ** The login exchange *)

Lemma login_answered_eq p u c loginReq resp :
  login_answered p u c loginReq resp →
  login p u =
    match Body resp with
    | inr e => ([HTTP_Do loginReq],
                Return (Some (Errorf_s "error reading token body: %s" e)))
    | inl body =>
        match json_Unmarshal dec_LoginResponse body zero_LoginResponse with
        | inl jwtToken => ([HTTP_Do loginReq], Next jwtToken)
        | inr e => ([HTTP_Do loginReq], Return (Some (Lib e)))
        end
    end.
Proof.
  intros (lb & Hc & Hm & Hn & Hd). unfold login, client_Do.
  rewrite Hm; simpl. rewrite Hn; simpl. rewrite Hc; simpl. rewrite Hd; simpl.
  destruct (Body resp) as [body|e]; [|done].
  by destruct (json_Unmarshal _ _ _).
Qed.

Lemma login_gives_eq p u c loginReq jwtToken :
  login_gives p u c loginReq jwtToken →
  client p = Some c ∧ login p u = ([HTTP_Do loginReq], Next jwtToken).
Proof.
  intros (resp & body & Ha & Hb & Hj).
  rewrite (login_answered_eq _ _ _ _ _ Ha), Hb, Hj.
  by destruct Ha as (_ & Hc & _).
Qed.

Lemma records_requests (w : list event) : Forall is_request w → records w = [].
Proof.
  induction 1 as [|e w He _ IH]; [done|]. by destruct e.
Qed.

Lemma login_requests p u : Forall is_request (login p u).1.
Proof.
  unfold login, client_Do, check, deref, bind, ret, emit, return_, panics.
  repeat (case_match; simplify_eq/=); repeat constructor.
Qed.

Lemma fetchStats_requests p u jwtToken :
  Forall is_request (fetchStats p u jwtToken).1.
Proof.
  unfold fetchStats, statsRequest, client_Do, check, deref, bind, ret, emit,
    return_, panics.
  repeat (case_match; simplify_eq/=); repeat constructor.
Qed.

(** ** gatherURL and its parts *)

Lemma gatherURL_parts p u : gatherURL p u = gatherURL_by_parts p u.
Proof.
  unfold gatherURL, gatherURL_by_parts, login, fetchStats, statsRequest,
    client_Do, results, check, deref, bind, ret, emit, return_, panics.
  repeat (case_match; simplify_eq/=); congruence.
Qed.

Lemma gatherURL_after_login p u w jwtToken :
  login p u = (w, Next jwtToken) →
  gatherURL p u =
    match fetchStats p u jwtToken with
    | (w1, Next stats) =>
        match clientFields stats with
        | (w2, Next clientFields) =>
            (w ++ w1 ++ w2 ++
               [AddFields "arangodb_system" (systemFields stats) {["url" := URL_String u]};
                AddFields "arangodb_server" (serverFields stats) {["url" := URL_String u]};
                AddFields "arangodb_client" clientFields {["url" := URL_String u]}],
             Returns None)
        | (w2, Return e) => (w ++ w1 ++ w2, Returns e)
        | (w2, Panic x) => (w ++ w1 ++ w2, Panics x)
        end
    | (w1, Return e) => (w ++ w1, Returns e)
    | (w1, Panic x) => (w ++ w1, Panics x)
    end.
Proof.
  intros Hl. rewrite gatherURL_parts. unfold gatherURL_by_parts.
  rewrite Hl. simpl.
  destruct (fetchStats p u jwtToken) as [w1 [stats|e|x]]; simpl; try done.
  destruct (clientFields stats) as [w2 [cf|e|x]]; simpl; try done.
Qed.

Lemma gatherURL_login_failed p u w :
  (∀ e, login p u = (w, Return e) → gatherURL p u = (w, Returns e)) ∧
  (∀ x, login p u = (w, Panic x) → gatherURL p u = (w, Panics x)).
Proof.
  split; intros ? Hl; rewrite gatherURL_parts; unfold gatherURL_by_parts;
    by rewrite Hl.
Qed.

Lemma fetchStats_sent p u c jwtToken r :
  client p = Some c →
  http_NewRequest "GET" (URL_String u +:+ statsPostfix) None = inl r →
  let statsReq := Header_Set "Authorization" ("Bearer " +:+ Jwt jwtToken) r in
  fetchStats p u jwtToken =
    match Client_Do c statsReq with
    | (None, _) => ([HTTP_Do statsReq], Panic NilDereference)
    | (Some statsResponse, _) =>
        match Body statsResponse with
        | inr e => ([HTTP_Do statsReq],
                    Return (Some (Errorf_s "error reading stats body: %s" e)))
        | inl body =>
            match json_Unmarshal dec_ArangoStats body zero_ArangoStats with
            | inl stats => ([HTTP_Do statsReq], Next stats)
            | inr e => ([HTTP_Do statsReq], Return (Some (Lib e)))
            end
        end
    end.
Proof.
  intros Hc Hn statsReq. unfold fetchStats, statsRequest, client_Do.
  rewrite Hn; simpl. rewrite Hc; simpl.
  fold statsReq. destruct (Client_Do c statsReq) as [[resp|] e]; simpl; [|done].
  destruct (Body resp) as [body|e']; [|done].
  by destruct (json_Unmarshal _ _ _).
Qed.

(** ** The client fields *)

Lemma clientFields_six stats c0 c1 c2 c3 c4 c5 rest :
  Counts (RequestTime (Client stats)) = c0 :: c1 :: c2 :: c3 :: c4 :: c5 :: rest →
  clientFields stats =
    ([], Next (list_to_map
                 [("req_0.01", VUint32 c0); ("req_0.05", VUint32 c1);
                  ("req_0.1", VUint32 c2); ("req_0.2", VUint32 c3);
                  ("req_0.5", VUint32 c4); ("req_1", VUint32 c5);
                  ("count", VUint32 (Count (RequestTime (Client stats))));
                  ("sum", VFloat32 (Sum (RequestTime (Client stats))))])).
Proof.
  intros Hc. unfold clientFields. rewrite Hc. simpl.
  reflexivity.
Qed.

Lemma clientFields_short stats :
  let counts := Counts (RequestTime (Client stats)) in
  length counts < 6 →
  clientFields stats = ([], Panic (IndexOutOfRange (length counts) (length counts))).
Proof.
  intros counts Hlen. unfold clientFields. fold counts.
  destruct counts as [|c0 [|c1 [|c2 [|c3 [|c4 [|c5 rest]]]]]]; simpl in *;
    (reflexivity || lia).
Qed.

(** ** Decoding *)

Lemma find_field_jwt k n : find_field ["jwt"] k = Some n → n = "jwt".
Proof.
  unfold find_field. simpl.
  destruct (String.eqb k "jwt"); [congruence|].
  destruct (equalFold "jwt" k); congruence.
Qed.

(** An object without a member for [jwt], or with the empty string or
    [null] there, leaves the token empty. *)
Lemma dec_LoginResponse_empty members :
  Forall (λ kv : string * json,
            find_field ["jwt"] kv.1 = None ∨ kv.2 = JStr EmptyString ∨
            kv.2 = JNull) members →
  dec_LoginResponse (JObj members) zero_LoginResponse = inl zero_LoginResponse.
Proof.
  unfold dec_LoginResponse, dec_struct.
  induction 1 as [|[k v] members Hkv _ IH]; [done|]. simpl in *.
  destruct (find_field ["jwt"] k) as [n|] eqn:Hf; [|done].
  apply find_field_jwt in Hf as ->.
  destruct Hkv as [?|[-> | ->]]; [done|..]; simpl; apply IH.
Qed.

Lemma dec_LoginResponse_token tok t :
  dec_LoginResponse (JObj [("jwt", JStr tok)]) t = inl {| Jwt := tok |}.
Proof. reflexivity. Qed.

(** An object without a member for [counts] leaves the buckets as they
    were. *)
Lemma dec_ArangoRequestTime_in_counts members : ∀ ts ts',
  Forall (λ kv : string * json,
            find_field ["requestTime"; "counts"; "sum"] kv.1 ≠ Some "counts")
         members →
  dec_ArangoRequestTime_in (JObj members) ts = inl ts' →
  Counts ts'.1 = Counts ts.1.
Proof.
  unfold dec_ArangoRequestTime_in, dec_struct.
  induction members as [|[k v] members IH]; intros ts ts' Hall Hdec;
    simpl in *.
  { by simplify_eq. }
  apply Forall_cons in Hall as [Hk Hall]. simpl in Hk.
  destruct (find_field _ k) as [n|] eqn:Hf; [|by eapply IH].
  destruct ts as [[a b c] spare].
  destruct (String.eqb n "requestTime").
  { destruct (dec_uint32 v a) as [x|]; [|done]. simpl in Hdec.
    by rewrite (IH _ _ Hall Hdec). }
  destruct (String.eqb n "counts") eqn:Hn.
  { apply String.eqb_eq in Hn as ->. done. }
  destruct (String.eqb n "sum").
  { destruct (dec_float32 v c) as [x|]; [|done]. simpl in Hdec.
    by rewrite (IH _ _ Hall Hdec). }
  by rewrite (IH _ _ Hall Hdec).
Qed.

Lemma dec_ArangoRequestTime_counts members t t' :
  Forall (λ kv : string * json,
            find_field ["requestTime"; "counts"; "sum"] kv.1 ≠ Some "counts")
         members →
  dec_ArangoRequestTime (JObj members) t = inl t' →
  Counts t' = Counts t.
Proof.
  intros Hall. unfold dec_ArangoRequestTime, without_spare.
  destruct (dec_ArangoRequestTime_in _ _) as [ts'|] eqn:Hdec; [|done].
  intros [= <-]. by rewrite (dec_ArangoRequestTime_in_counts _ _ _ Hall Hdec).
Qed.

(** ** The claims on the field maps *)

(** C3.  The six bucket fields read positions 0 to 5 of the bucket counts.
    With at least six counts every one of the six reads is in bounds and the
    client fields are built; with fewer than six the first read past the end
    is an index out of range, a panic.  A [requestTime] object without a
    member for [counts] decodes to no counts at all, as does an empty
    payload, and then the read of position 0 panics. *)
Theorem bucket_indexing_bounds (stats : ArangoStats) :
  let counts := Counts (RequestTime (Client stats)) in
  ((6 ≤ length counts)%nat →
     (∀ i, (i < 6)%nat → is_Some (counts !! i)) ∧
     ∃ fields, clientFields stats = ([], Next fields)) ∧
  ((length counts < 6)%nat →
     clientFields stats =
       ([], Panic (IndexOutOfRange (length counts) (length counts)))) ∧
  (∀ members t,
     Forall (λ kv : string * json,
               find_field ["requestTime"; "counts"; "sum"] kv.1 ≠ Some "counts")
            members →
     dec_ArangoRequestTime (JObj members) zero_ArangoRequestTime = inl t →
     Counts t = []) ∧
  dec_ArangoStats (JObj []) zero_ArangoStats = inl zero_ArangoStats ∧
  clientFields zero_ArangoStats = ([], Panic (IndexOutOfRange 0 0)).
Proof.
  intros counts. split_and!.
  - intros Hlen. split.
    + intros i Hi. apply lookup_lt_is_Some. lia.
    + destruct counts as [|c0 [|c1 [|c2 [|c3 [|c4 [|c5 rest]]]]]] eqn:Hc;
        simpl in Hlen; try lia.
      eexists. by eapply clientFields_six.
  - apply clientFields_short.
  - intros members t Hall Hdec.
    by rewrite (dec_ArangoRequestTime_counts _ _ _ Hall Hdec).
  - reflexivity.
  - reflexivity.
Qed.

(** C7.  The client fields map [req_0.01], [req_0.05], [req_0.1], [req_0.2],
    [req_0.5] and [req_1] to positions 0 to 5 of the bucket counts, [count]
    to the request count and [sum] to the total.  For a payload whose
    client section is
    [{requestTime: {requestTime: 10, counts: [1,2,3,4,5,6], sum: 7.2}}]
    they are req_0.01:1, req_0.05:2, req_0.1:3, req_0.2:4, req_0.5:5,
    req_1:6, count:10 and sum: the float32 read from 7.2. *)
Theorem client_fields_positional :
  (∀ stats c0 c1 c2 c3 c4 c5 rest,
     Counts (RequestTime (Client stats)) = c0 :: c1 :: c2 :: c3 :: c4 :: c5 :: rest →
     clientFields stats =
       ([], Next (list_to_map
                    [("req_0.01", VUint32 c0); ("req_0.05", VUint32 c1);
                     ("req_0.1", VUint32 c2); ("req_0.2", VUint32 c3);
                     ("req_0.5", VUint32 c4); ("req_1", VUint32 c5);
                     ("count", VUint32 (Count (RequestTime (Client stats))));
                     ("sum", VFloat32 (Sum (RequestTime (Client stats))))]))) ∧
  (∀ system server sum stats,
     ParseFloat32 "7.2" = Some sum →
     dec_ArangoStats
       (JObj [("system", system); ("server", server);
              ("client",
               JObj [("requestTime",
                      JObj [("requestTime", JNum "10");
                            ("counts", JArr [JNum "1"; JNum "2"; JNum "3";
                                             JNum "4"; JNum "5"; JNum "6"]);
                            ("sum", JNum "7.2")])])])
       zero_ArangoStats = inl stats →
     clientFields stats =
       ([], Next (list_to_map
                    [("req_0.01", VUint32 1); ("req_0.05", VUint32 2);
                     ("req_0.1", VUint32 3); ("req_0.2", VUint32 4);
                     ("req_0.5", VUint32 5); ("req_1", VUint32 6);
                     ("count", VUint32 10); ("sum", VFloat32 sum)]))).
Proof.
  split; [apply clientFields_six|].
  intros system server sum stats Hsum Hdec.
  unfold dec_ArangoStats, without_spare, dec_ArangoStats_in, dec_struct in Hdec.
  simpl in Hdec.
  destruct (dec_ArangoSystem system zero_ArangoSystem) as [sy|]; [|done].
  simpl in Hdec.
  destruct (dec_ArangoServer server zero_ArangoServer) as [sv|]; [|done].
  simpl in Hdec. rewrite Hsum in Hdec. simpl in Hdec.
  injection Hdec as <-. by erewrite clientFields_six.
Qed.

(** ** The claims on one fetch *)

(** Before the last line, the function returns errors only. *)
Lemma login_never_nil p u w : login p u ≠ (w, Return None).
Proof.
  unfold login, client_Do, check, deref, bind, ret, emit, return_, panics.
  repeat (case_match; simplify_eq/=); congruence.
Qed.

Lemma fetchStats_never_nil p u jwtToken w :
  fetchStats p u jwtToken ≠ (w, Return None).
Proof.
  unfold fetchStats, statsRequest, client_Do, check, deref, bind, ret, emit,
    return_, panics.
  repeat (case_match; simplify_eq/=); congruence.
Qed.

(** Building the client fields makes no event and returns nothing. *)
Lemma clientFields_pure stats w r :
  clientFields stats = (w, r) → w = [] ∧ ∀ e, r ≠ Return e.
Proof.
  unfold clientFields, index, bind, ret, panics.
  destruct (Counts _) as [|c0 [|c1 [|c2 [|c3 [|c4 [|c5 rest]]]]]]; simpl;
    intros; simplify_eq; done.
Qed.

(** C1.  What the code does when the statistics GET fails at the transport:
    after a login exchange that gave a token, when the client returns no
    response and an error for the statistics request, [gatherURL] does not
    return an error; it goes through the nil response and panics, the two
    requests being all the events it made. *)
Theorem stats_transport_error_panics (p : ArangoDB) (u : URL) (c : http_Client)
    (loginReq : Request) (jwtToken : LoginResponse) (r : Request) (e : liberror) :
  login_gives p u c loginReq jwtToken →
  http_NewRequest "GET" (URL_String u +:+ statsPostfix) None = inl r →
  Client_Do c (Header_Set "Authorization" ("Bearer " +:+ Jwt jwtToken) r)
    = (None, Some e) →
  gatherURL p u =
    ([HTTP_Do loginReq;
      HTTP_Do (Header_Set "Authorization" ("Bearer " +:+ Jwt jwtToken) r)],
     Panics NilDereference).
Proof.
  intros [Hc Hl]%login_gives_eq Hn Hd.
  rewrite (gatherURL_after_login _ _ _ _ Hl).
  rewrite (fetchStats_sent _ _ _ _ _ Hc Hn). simpl. by rewrite Hd.
Qed.

(** A fetch that returns nil went through the login exchange, the
    statistics request and the six reads, and then made its three calls
    of [AddFields]. *)
Lemma gatherURL_nil_inv (p : ArangoDB) (u : URL) (w : list event) :
  gatherURL p u = (w, Returns None) →
  ∃ w0 w1 jwtToken stats clientFields_,
    login p u = (w0, Next jwtToken) ∧
    fetchStats p u jwtToken = (w1, Next stats) ∧
    clientFields stats = ([], Next clientFields_) ∧
    w = w0 ++ w1 ++
        [AddFields "arangodb_system" (systemFields stats) {["url" := URL_String u]};
         AddFields "arangodb_server" (serverFields stats) {["url" := URL_String u]};
         AddFields "arangodb_client" clientFields_ {["url" := URL_String u]}].
Proof.
  intros Hg.
  destruct (login p u) as [w0 [jwtToken|e|x]] eqn:Hl.
  2: { rewrite (proj1 (gatherURL_login_failed p u w0) _ Hl) in Hg.
       simplify_eq. by destruct (login_never_nil p u w). }
  2: { by rewrite (proj2 (gatherURL_login_failed p u w0) _ Hl) in Hg. }
  rewrite (gatherURL_after_login _ _ _ _ Hl) in Hg.
  destruct (fetchStats p u jwtToken) as [w1 [stats|e|x]] eqn:Hf; simplify_eq/=.
  2: { by destruct (fetchStats_never_nil p u jwtToken w1). }
  destruct (clientFields stats) as [w2 [cf|e|x]] eqn:Hcs; simplify_eq/=.
  2: { by destruct (proj2 (clientFields_pure _ _ _ Hcs) None). }
  destruct (clientFields_pure _ _ _ Hcs) as [-> _].
  by exists w0, w1, jwtToken, stats, cf.
Qed.

Lemma records_of_failure (p : ArangoDB) (u : URL) (w : list event) (r : exit) :
  gatherURL p u = (w, r) → r ≠ Returns None → records w = [].
Proof.
  intros Hg Hr.
  pose proof (login_requests p u) as Hw0.
  destruct (login p u) as [w0 [jwtToken|e|x]] eqn:Hl.
  2: { rewrite (proj1 (gatherURL_login_failed p u w0) _ Hl) in Hg.
       simplify_eq. by apply records_requests. }
  2: { rewrite (proj2 (gatherURL_login_failed p u w0) _ Hl) in Hg.
       simplify_eq. by apply records_requests. }
  rewrite (gatherURL_after_login _ _ _ _ Hl) in Hg.
  pose proof (fetchStats_requests p u jwtToken) as Hw1.
  destruct (fetchStats p u jwtToken) as [w1 [stats|e|x]]; simplify_eq/=;
    try by rewrite records_app, !records_requests.
  destruct (clientFields stats) as [w2 [cf|e|x]] eqn:Hcs; simplify_eq/=;
    destruct (clientFields_pure _ _ _ Hcs) as [-> _];
    by rewrite !records_app, !records_requests.
Qed.

(** C4.  A fetch that returns nil has submitted exactly three records,
    [arangodb_system], [arangodb_server] and [arangodb_client] in this
    order, each with the tag set whose one entry maps [url] to the string
    of the endpoint's URL. *)
Theorem successful_fetch_three_records (p : ArangoDB) (u : URL) (w : list event) :
  gatherURL p u = (w, Returns None) →
  ∃ stats clientFields_,
    clientFields stats = ([], Next clientFields_) ∧
    records w =
      [("arangodb_system", systemFields stats, {["url" := URL_String u]});
       ("arangodb_server", serverFields stats, {["url" := URL_String u]});
       ("arangodb_client", clientFields_, {["url" := URL_String u]})].
Proof.
  intros (w0 & w1 & jwtToken & stats & cf & Hl & Hf & Hcf & ->)%gatherURL_nil_inv.
  exists stats, cf. split; [done|].
  pose proof (login_requests p u) as Hw0. rewrite Hl in Hw0.
  pose proof (fetchStats_requests p u jwtToken) as Hw1. rewrite Hf in Hw1.
  rewrite !records_app, !records_requests by done. done.
Qed.

Lemma Header_Set_Get key value r : Header_Get key (Header_Set key value r) = value.
Proof. unfold Header_Get, Header_Set. simpl. by rewrite lookup_insert_eq. Qed.

(** After a login that gave a token, the next event is the statistics
    request with the header set. *)
Lemma gatherURL_sends_stats p u c w jwtToken r :
  client p = Some c →
  login p u = (w, Next jwtToken) →
  http_NewRequest "GET" (URL_String u +:+ statsPostfix) None = inl r →
  ∃ rest,
    (gatherURL p u).1 =
      w ++ HTTP_Do (Header_Set "Authorization" ("Bearer " +:+ Jwt jwtToken) r)
        :: rest.
Proof.
  intros Hc Hl Hn.
  rewrite (gatherURL_after_login _ _ _ _ Hl).
  rewrite (fetchStats_sent _ _ _ _ _ Hc Hn). simpl.
  destruct (Client_Do _ _) as [[resp|] e]; [|by exists []].
  destruct (Body resp) as [body|e']; [|by exists []].
  destruct (json_Unmarshal _ _ _) as [stats|e']; [|by exists []].
  destruct (clientFields stats) as [w2 [cf|e'|x]]; simpl; eauto.
Qed.

(** C8.  Whatever token the login exchange gave, the request handed to the
    client for the statistics is the GET request with its Authorization
    header set to the one value made of [Bearer], a space and the token as
    it is; the decoder hands a JSON string on as it is. *)
Theorem bearer_header_verbatim (p : ArangoDB) (u : URL) (c : http_Client)
    (loginReq : Request) (jwtToken : LoginResponse) (r : Request) :
  login_gives p u c loginReq jwtToken →
  http_NewRequest "GET" (URL_String u +:+ statsPostfix) None = inl r →
  (∃ statsReq rest,
     (gatherURL p u).1 = HTTP_Do loginReq :: HTTP_Do statsReq :: rest ∧
     Header statsReq !! "Authorization" = Some ["Bearer " +:+ Jwt jwtToken] ∧
     Header_Get "Authorization" statsReq = "Bearer " +:+ Jwt jwtToken ∧
     Method statsReq = Method r ∧ RawURL statsReq = RawURL r) ∧
  (∀ tok t, dec_LoginResponse (JObj [("jwt", JStr tok)]) t = inl {| Jwt := tok |}).
Proof.
  intros [Hc Hl]%login_gives_eq Hn. split; [|apply dec_LoginResponse_token].
  destruct (gatherURL_sends_stats _ _ _ _ _ _ Hc Hl Hn) as [rest Hg].
  eexists _, rest. split; [exact Hg|].
  split_and!; try done.
  - simpl. by rewrite lookup_insert_eq.
  - apply Header_Set_Get.
Qed.

(** C9.  When the login request was answered, whatever the status code of
    the response, the login exchange succeeds exactly when the body
    decodes: it then gives the decoded token and the fetch goes on to the
    statistics request; otherwise the fetch returns the decoder's error
    after the login request alone. *)
Theorem login_decided_by_decoding (p : ArangoDB) (u : URL) (c : http_Client)
    (loginReq : Request) (status : Z) (body : bytes) :
  login_answered p u c loginReq {| StatusCode := status; Body := inl body |} →
  match json_Unmarshal dec_LoginResponse body zero_LoginResponse with
  | inl jwtToken =>
      login p u = ([HTTP_Do loginReq], Next jwtToken) ∧
      (∀ r, http_NewRequest "GET" (URL_String u +:+ statsPostfix) None = inl r →
         ∃ rest,
           (gatherURL p u).1 =
             HTTP_Do loginReq
               :: HTTP_Do (Header_Set "Authorization"
                             ("Bearer " +:+ Jwt jwtToken) r)
               :: rest)
  | inr e =>
      login p u = ([HTTP_Do loginReq], Return (Some (Lib e))) ∧
      gatherURL p u = ([HTTP_Do loginReq], Returns (Some (Lib e)))
  end.
Proof.
  intros Ha. pose proof (login_answered_eq _ _ _ _ _ Ha) as Hl. simpl in Hl.
  destruct Ha as (_ & Hc & _).
  destruct (json_Unmarshal _ _ _) as [jwtToken|e].
  - split; [done|]. intros r Hn.
    apply (gatherURL_sends_stats _ _ _ _ _ _ Hc Hl Hn).
  - split; [done|]. by apply gatherURL_login_failed.
Qed.

(** C10.  When the body of the login response is a JSON object in which no
    member selects [jwt], or such a member is the empty string or [null],
    the login exchange succeeds with the empty token, and the statistics
    request is sent with the Authorization header [Bearer] followed by a
    space and nothing else. *)
Theorem empty_token_proceeds (p : ArangoDB) (u : URL) (c : http_Client)
    (loginReq : Request) (status : Z) (body : bytes)
    (members : list (string * json)) (r : Request) :
  login_answered p u c loginReq {| StatusCode := status; Body := inl body |} →
  json_scan body = Some (JObj members) →
  Forall (λ kv : string * json,
            find_field ["jwt"] kv.1 = None ∨ kv.2 = JStr EmptyString ∨
            kv.2 = JNull) members →
  http_NewRequest "GET" (URL_String u +:+ statsPostfix) None = inl r →
  login p u = ([HTTP_Do loginReq], Next {| Jwt := EmptyString |}) ∧
  ∃ statsReq rest,
    (gatherURL p u).1 = HTTP_Do loginReq :: HTTP_Do statsReq :: rest ∧
    statsReq = Header_Set "Authorization" "Bearer " r ∧
    Header_Get "Authorization" statsReq = "Bearer ".
Proof.
  intros Ha Hs Hm Hn.
  pose proof (login_answered_eq _ _ _ _ _ Ha) as Hl. simpl in Hl.
  unfold json_Unmarshal in Hl. rewrite Hs in Hl.
  rewrite (dec_LoginResponse_empty _ Hm) in Hl.
  split; [done|].
  destruct Ha as (_ & Hc & _).
  destruct (gatherURL_sends_stats _ _ _ _ _ _ Hc Hl Hn) as [rest Hg].
  eexists _, rest. split; [exact Hg|]. split; [done|].
  apply Header_Set_Get.
Qed.

(** ** Cycles *)

Lemma advanced_refl g : advanced g g.
Proof. by split_and!. Qed.

Lemma advanced_trans g1 g2 g3 : advanced g1 g2 → advanced g2 g3 → advanced g1 g3.
Proof.
  intros (? & ? & ?) (? & ? & ?). split_and!; [congruence..|by etrans].
Qed.

Lemma Forall2_advanced_refl gs : Forall2 advanced gs gs.
Proof. induction gs; constructor; auto using advanced_refl. Qed.

Lemma Forall2_advanced_trans gs1 gs2 gs3 :
  Forall2 advanced gs1 gs2 → Forall2 advanced gs2 gs3 → Forall2 advanced gs1 gs3.
Proof.
  intros H12. revert gs3. induction H12; inversion 1; simplify_eq;
    constructor; eauto using advanced_trans.
Qed.

Lemma step_advanced c c' : step c c' → Forall2 advanced (pool c) (pool c').
Proof.
  destruct 1 as [c i g e rest Hi Ht]. simpl.
  rewrite <-(list_insert_id (pool c) i g) at 1 by done.
  apply Forall2_insert; [apply Forall2_advanced_refl|].
  unfold advanced, script. simpl. rewrite Ht.
  split_and!; [by rewrite <-(assoc_L (++))|done|by apply prefix_app_r].
Qed.

Lemma runs_advanced c c' r : runs c c' r → Forall2 advanced (pool c) (pool c').
Proof.
  induction 1; eauto using Forall2_advanced_refl, Forall2_advanced_trans,
    step_advanced.
Qed.

(** How a cycle can end: every goroutine at its end and nil returned, or
    one of them at its panic. *)
Lemma runs_end c c' r :
  runs c c' r →
  match r with
  | Returned e => e = None ∧ Forall ended (pool c')
  | Crashed x => ∃ g, g ∈ pool c' ∧ todo g = [] ∧ ending g = Some x
  end.
Proof. induction 1; eauto. Qed.

Lemma concat_insert_snoc {A} (ls : list (list A)) i l x :
  ls !! i = Some l → concat (<[i := l ++ [x]]> ls) ≡ₚ concat ls ++ [x].
Proof.
  intros Hi. rewrite insert_take_drop by by eapply lookup_lt_Some.
  rewrite <-(take_drop_middle ls i l) at 3 by done.
  rewrite !concat_app. simpl.
  rewrite <-!(assoc_L (++)). f_equiv. f_equiv. apply (comm (++)).
Qed.

(** The events of the cycle are those it started with and those the
    goroutines have made. *)
Lemma step_trace c c' base :
  step c c' →
  trace c ≡ₚ base ++ concat (made <$> pool c) →
  trace c' ≡ₚ base ++ concat (made <$> pool c').
Proof.
  destruct 1 as [c i g e rest Hi Ht]. simpl. intros ->.
  rewrite list_fmap_insert. simpl.
  rewrite concat_insert_snoc by by rewrite list_lookup_fmap, Hi.
  by rewrite (assoc_L (++)).
Qed.

Lemma runs_trace c c' r base :
  runs c c' r →
  trace c ≡ₚ base ++ concat (made <$> pool c) →
  trace c' ≡ₚ base ++ concat (made <$> pool c').
Proof. induction 1; eauto using step_trace. Qed.

(** The goroutine in the middle of the pool runs to its end by steps. *)
Lemma runs_drain before gs en td : ∀ md t c' r,
  runs {| pool := before ++ {| made := md ++ td; todo := []; ending := en |} :: gs;
          trace := t ++ td |} c' r →
  runs {| pool := before ++ {| made := md; todo := td; ending := en |} :: gs;
          trace := t |} c' r.
Proof.
  induction td as [|e td IH]; intros md t c' r Hr.
  { by rewrite !app_nil_r in Hr. }
  eapply runs_step.
  { eapply (step_event _ (length before)); [apply list_lookup_middle; done|done]. }
  simpl. rewrite insert_app_r_alt, Nat.sub_diag by done. simpl.
  apply IH. by rewrite <-!(assoc_L (++)).
Qed.

(** Running the goroutines in the order of their launch is one way the
    cycle can go: every cycle has a run. *)
Lemma run_in_order_runs gs : ∀ before t,
  Forall ended before →
  runs {| pool := before ++ gs; trace := t |}
       (run_in_order before gs t).1 (run_in_order before gs t).2.
Proof.
  induction gs as [|g gs IH]; intros before t Hb; simpl.
  { rewrite app_nil_r. by apply runs_wait. }
  destruct g as [md td en]. unfold run_to_end. simpl.
  apply (runs_drain before gs en td md t).
  destruct en as [x|]; simpl.
  - eapply (runs_crash _ {| made := md ++ td; todo := []; ending := Some x |});
      [|done..]. simpl. set_solver.
  - specialize (IH (before ++ [{| made := md ++ td; todo := []; ending := None |}])
                   (t ++ td)).
    rewrite <-(assoc_L (++)) in IH. simpl in IH. apply IH.
    apply Forall_app. split; [done|]. by repeat constructor.
Qed.

(** Running every goroutine to its end and then returning is another. *)
Lemma run_all_runs gs : ∀ before t,
  Forall ended before →
  runs {| pool := before ++ gs; trace := t |}
       {| pool := before ++ (run_to_end <$> gs);
          trace := t ++ concat (todo <$> gs) |} (Returned None).
Proof.
  induction gs as [|g gs IH]; intros before t Hb; simpl.
  { rewrite !app_nil_r. by apply runs_wait. }
  destruct g as [md td en]. unfold run_to_end at 1. simpl.
  apply (runs_drain before gs en td md t).
  specialize (IH (before ++ [{| made := md ++ td; todo := []; ending := en |}])
                 (t ++ td)).
  rewrite <-!(assoc_L (++)) in IH. simpl in IH. apply IH.
  apply Forall_app. split; [done|]. by repeat constructor.
Qed.

(** ** The two loops of Gather *)

Lemma parse_loop_eq urls : ∀ all,
  parse_loop urls all = (omap skipped urls, all ++ omap parsed urls).
Proof.
  induction urls as [|s urls IH]; intros all; simpl.
  { by rewrite app_nil_r. }
  unfold skipped, parsed at 1. destruct (url_Parse s) as [u|e]; rewrite IH.
  - by rewrite <-(assoc_L (++)).
  - done.
Qed.

Lemma Gather_launch_eq p :
  Gather_launch p =
    inr {| pool := go (set_client p (createHttpClient p).1) <$> omap parsed (Urls p);
           trace := omap skipped (Urls p) |}.
Proof. unfold Gather_launch. simpl. by rewrite parse_loop_eq. Qed.

Lemma Gather_in_order_runs p :
  Gather p (Gather_in_order p).1 (Gather_in_order p).2.
Proof.
  unfold Gather, Gather_in_order. rewrite Gather_launch_eq. simpl.
  by apply (run_in_order_runs _ []).
Qed.

Lemma Gather_to_return_runs p :
  Gather p (Gather_to_return p).1 (Returned None).
Proof.
  unfold Gather, Gather_to_return. rewrite Gather_launch_eq. simpl.
  by apply (run_all_runs _ []).
Qed.

Lemma length_omap_parsed urls :
  length (omap parsed urls) = length (filter (λ s, is_Some (parsed s)) urls).
Proof.
  induction urls as [|s urls IH]; [done|]. simpl.
  rewrite filter_cons. destruct (parsed s) eqn:Hs; case_decide as Hd; simpl.
  - f_equal. apply IH.
  - destruct Hd. eauto.
  - by destruct Hd.
  - apply IH.
Qed.

(** ** The claims on the cycle *)

Lemma made_go p us : concat (made <$> (go p <$> us)) = [].
Proof.
  induction us as [|u us IH]; [done|]. rewrite !fmap_cons. simpl. rewrite IH.
  unfold go. by destruct (gatherURL p u) as [w [e|x]].
Qed.

(** A goroutine of the pool at the start has its later state in the pool
    at the end, and the other way round. *)
Lemma runs_origin c c' r g' :
  runs c c' r → g' ∈ pool c' → ∃ g, g ∈ pool c ∧ advanced g g'.
Proof.
  intros Hr Hg'. apply runs_advanced in Hr.
  apply list_elem_of_lookup in Hg' as [i Hi].
  destruct (Forall2_lookup_r _ _ _ _ _ Hr Hi) as (g & Hg & Ha).
  exists g. split; [|done]. by eapply list_elem_of_lookup_2.
Qed.

Lemma runs_later c c' r g :
  runs c c' r → g ∈ pool c → ∃ g', g' ∈ pool c' ∧ advanced g g'.
Proof.
  intros Hr Hg. apply runs_advanced in Hr.
  apply list_elem_of_lookup in Hg as [i Hi].
  destruct (Forall2_lookup_l _ _ _ _ _ Hr Hi) as (g' & Hg' & Ha).
  exists g'. split; [|done]. by eapply list_elem_of_lookup_2.
Qed.

(** When a cycle with a goroutine that panics returns, that goroutine has
    panicked; a cycle crashes only by the panic of one of its
    goroutines. *)
Lemma runs_dying c c' e g x :
  runs c c' (Returned e) → g ∈ pool c → ending g = Some x → dying c' x.
Proof.
  intros Hr Hg Hx.
  destruct (runs_later _ _ _ _ Hr Hg) as (g' & Hg' & _ & He & _).
  apply runs_end in Hr as [_ Hf].
  rewrite Forall_forall in Hf. exists g'. split_and!; [done|by apply Hf|].
  congruence.
Qed.

Lemma runs_crash_cause c c' x :
  runs c c' (Crashed x) → ∃ g, g ∈ pool c ∧ ending g = Some x.
Proof.
  intros Hr. destruct (runs_end _ _ _ Hr) as (g' & Hg' & _ & Hx).
  destruct (runs_origin _ _ _ _ Hr Hg') as (g & Hg & _ & He & _).
  exists g. split; [done|congruence].
Qed.

(** Without a panic among the goroutines every run returns nil. *)
Lemma runs_returns c c' r :
  runs c c' r → Forall (λ g, ending g = None) (pool c) → r = Returned None.
Proof.
  intros Hr Hn. destruct r as [e|x].
  - by apply runs_end in Hr as [-> _].
  - apply runs_crash_cause in Hr as (g & Hg & Hx).
    rewrite Forall_forall in Hn. rewrite (Hn _ Hg) in Hx. done.
Qed.

(** What a fetch makes is requests and records: it never calls [AddError]
    itself and never logs. *)
Lemma gatherURL_quiet p u :
  Forall (λ e, match e with HTTP_Do _ | AddFields _ _ _ => True | _ => False end)
         (gatherURL p u).1.
Proof.
  assert (∀ w, Forall is_request w →
            Forall (λ e, match e with
                         | HTTP_Do _ | AddFields _ _ _ => True
                         | _ => False
                         end) w) as Hreq.
  { intros w Hw. eapply Forall_impl; [exact Hw|]. by intros []. }
  pose proof (login_requests p u) as Hw0.
  destruct (login p u) as [w0 [jwtToken|err|x]] eqn:Hl; simpl in Hw0.
  2: { rewrite (proj1 (gatherURL_login_failed p u w0) _ Hl). by apply Hreq. }
  2: { rewrite (proj2 (gatherURL_login_failed p u w0) _ Hl). by apply Hreq. }
  rewrite (gatherURL_after_login _ _ _ _ Hl).
  pose proof (fetchStats_requests p u jwtToken) as Hw1.
  destruct (fetchStats p u jwtToken) as [w1 [stats|err|x]]; simpl in *;
    try (by rewrite Forall_app; auto).
  destruct (clientFields stats) as [w2 [cf|err|x]] eqn:Hcs;
    destruct (clientFields_pure _ _ _ Hcs) as [-> _]; simpl;
    rewrite ?Forall_app; split_and?; auto.
Qed.

Lemma script_go_events p u : script (go p u) = fetch_events p u.
Proof.
  unfold script, go, fetch_events.
  destruct (gatherURL p u) as [w [e|x]]; simpl; by rewrite ?app_nil_r.
Qed.

Lemma ending_go p u :
  ending (go p u) =
    match (gatherURL p u).2 with Returns _ => None | Panics x => Some x end.
Proof. unfold go. by destruct (gatherURL p u) as [w [e|x]]. Qed.

(** The goroutines of a run against the URLs they were launched for. *)
Lemma Gather_pool p c r :
  Gather p c r →
  Forall2 (λ u g, script g = fetch_events (set_client p (createHttpClient p).1) u ∧
                  ending g = ending (go (set_client p (createHttpClient p).1) u) ∧
                  made g `prefix_of` script g)
          (omap parsed (Urls p)) (pool c).
Proof.
  unfold Gather. rewrite Gather_launch_eq. intros Hr.
  apply runs_advanced in Hr. simpl in Hr.
  apply (proj1 (Forall2_fmap_l _ _ _ _)) in Hr.
  eapply Forall2_impl; [exact Hr|]. intros u g (Hs & He & _). simpl in *.
  split_and!; [by rewrite Hs, script_go_events|done|].
  unfold script. by apply prefix_app_r.
Qed.

(** C6.  The second loop launches one goroutine for each URL string that
    parses, in the order of the list, so as many as there are such
    strings.  A string that does not parse is logged and has no goroutine;
    leaving it out of the list gives the same goroutines.  In every run
    the goroutines are these, one for each parsed URL, each doing the
    fetch of its own URL and then the call of [AddError]; whenever
    [Gather] returns, it returns nil and every one of them has come to its
    end, having made all its events; and there is a run in which [Gather]
    returns.  (A run can also end by the crash of the process, when a
    fetch panics; [Gather] then does not return.) *)
Theorem one_task_per_parsed_url (p : ArangoDB) :
  let p' := set_client p (createHttpClient p).1 in
  ∃ c0, Gather_launch p = inr c0 ∧
    pool c0 = go p' <$> omap parsed (Urls p) ∧
    length (pool c0) = length (filter (λ s, is_Some (parsed s)) (Urls p)) ∧
    trace c0 = omap skipped (Urls p) ∧
    (∀ s err, s ∈ Urls p → url_Parse s = inr err →
       Log_Printf "arangodb: Could not parse %s, skipping. Error: %s" s err
         ∈ trace c0) ∧
    (∀ urls1 s urls2, Urls p = urls1 ++ s :: urls2 → parsed s = None →
       pool c0 = go p' <$> omap parsed (urls1 ++ urls2)) ∧
    (∀ c r, Gather p c r →
       length (pool c) = length (pool c0) ∧
       Forall2 (λ u g, script g = fetch_events p' u ∧
                       (∀ e, r = Returned e →
                          todo g = [] ∧ made g = fetch_events p' u))
               (omap parsed (Urls p)) (pool c) ∧
       (∀ e, r = Returned e → e = None)) ∧
    (∃ c, Gather p c (Returned None) ∧
          Forall2 (λ u g, made g = fetch_events p' u)
                  (omap parsed (Urls p)) (pool c)).
Proof.
  intros p'.
  assert (∀ c r, Gather p c r →
       Forall2 (λ u g, script g = fetch_events p' u ∧
                       (∀ e, r = Returned e →
                          todo g = [] ∧ made g = fetch_events p' u))
               (omap parsed (Urls p)) (pool c)) as Hjoin.
  { intros c r Hg. pose proof (Gather_pool _ _ _ Hg) as Hp. fold p' in Hp.
    assert (Forall (λ g, ∀ e, r = Returned e → todo g = []) (pool c)) as Hf.
    { unfold Gather in Hg. rewrite Gather_launch_eq in Hg.
      apply runs_end in Hg. destruct r as [e|x]; [|by apply Forall_true].
      destruct Hg as [_ Hg]. eapply Forall_impl; [exact Hg|]. by intros g ? _ _. }
    clear Hg. induction Hp as [|u g us gs (Hs & _ & _) Hp IH]; [constructor|].
    apply Forall_cons in Hf as [Hg Hgs]. constructor; [|by apply IH].
    split; [done|]. intros e Hr. split; [by eapply Hg|].
    rewrite <-Hs. unfold script. by rewrite (Hg e Hr), app_nil_r. }
  eexists. split; [apply Gather_launch_eq|]. simpl. split_and!.
  - done.
  - by rewrite length_fmap, length_omap_parsed.
  - done.
  - intros s err Hs Hp. apply list_elem_of_omap. exists s. split; [done|].
    unfold skipped. by rewrite Hp.
  - intros urls1 s urls2 -> Hs. by rewrite !omap_app; simpl; rewrite Hs.
  - intros c r Hg. split_and!; [|by apply Hjoin|].
    + unfold Gather in Hg. rewrite Gather_launch_eq in Hg.
      apply runs_advanced, Forall2_length in Hg. by rewrite <-Hg.
    + intros e ->. unfold Gather in Hg. rewrite Gather_launch_eq in Hg.
      by apply runs_end in Hg as [-> _].
  - exists (Gather_to_return p).1. pose proof (Gather_to_return_runs p) as Hr.
    split; [done|]. eapply Forall2_impl; [exact (Hjoin _ _ Hr)|].
    intros u g [_ Hm]. by destruct (Hm None).
Qed.

Lemma advanced_ended_made gs gs' :
  Forall2 advanced gs gs' → Forall ended gs' → made <$> gs' = script <$> gs.
Proof.
  induction 1 as [|g g' gs gs' (Hs & _ & _) _ IH]; [done|].
  intros [Ht Hf]%Forall_cons. rewrite !fmap_cons, IH by done.
  f_equal. rewrite <-Hs. unfold script. by rewrite Ht, app_nil_r.
Qed.

Lemma script_go p (us : list URL) :
  script <$> (go p <$> us) = todo <$> (go p <$> us).
Proof.
  induction us as [|u us IH]; [done|]. rewrite !fmap_cons, IH. f_equal.
  unfold script, go. by destruct (gatherURL p u) as [w [e|x]].
Qed.

(** When no fetch of the cycle panics, [Gather] has a run, every run
    returns nil, and the events of the cycle are then the skip messages
    and, for every URL that parsed, the events of its fetch followed by
    the call of [AddError] with what the fetch returned. *)
Theorem Gather_returns_nil_without_panic (p : ArangoDB) :
  let p' := set_client p (createHttpClient p).1 in
  Forall (λ u, ∀ x, (gatherURL p' u).2 ≠ Panics x) (omap parsed (Urls p)) →
  (∃ c, Gather p c (Returned None)) ∧
  (∀ c r, Gather p c r →
     r = Returned None ∧
     trace c ≡ₚ
       omap skipped (Urls p) ++
       concat ((λ u, (gatherURL p' u).1 ++
                     match (gatherURL p' u).2 with
                     | Returns err => [AddError err]
                     | Panics _ => []
                     end) <$> omap parsed (Urls p))).
Proof.
  intros p' Hnp.
  assert (∀ c r, Gather p c r →
     r = Returned None ∧
     trace c ≡ₚ
       omap skipped (Urls p) ++
       concat ((λ u, (gatherURL p' u).1 ++
                     match (gatherURL p' u).2 with
                     | Returns err => [AddError err]
                     | Panics _ => []
                     end) <$> omap parsed (Urls p))) as Hall.
  { intros c r. unfold Gather. rewrite Gather_launch_eq. fold p'. intros Hr.
    assert (r = Returned None) as ->.
    { apply (runs_returns _ _ _ Hr). simpl. apply Forall_fmap.
      eapply Forall_impl; [exact Hnp|]. intros u Hu. simpl in *. unfold go.
      destruct (gatherURL p' u) as [w [e|x]]; [done|]. by destruct (Hu x). }
    split; [done|].
    rewrite (runs_trace _ _ _ (omap skipped (Urls p)) Hr)
      by (simpl; by rewrite made_go, app_nil_r).
    rewrite (advanced_ended_made _ _ (runs_advanced _ _ _ Hr))
      by (by apply runs_end in Hr as [_ ?]).
    simpl. rewrite script_go, <-list_fmap_compose.
    f_equiv.
    match goal with |- concat ?a ≡ₚ concat ?b => replace a with b; [done|] end.
    apply list_fmap_ext. intros _ u _. simpl. unfold go.
    destruct (gatherURL p' u) as [w [e|x]]; simpl; [done|by rewrite app_nil_r]. }
  split; [|exact Hall].
  exists (Gather_in_order p).1.
  pose proof (Gather_in_order_runs p) as Hr.
  by destruct (Hall _ _ Hr) as [<- _].
Qed.

(** With fewer than six bucket counts in a decoded payload the fetch
    panics at the first read past the end, after both requests and before
    any record. *)
Theorem short_histogram_panics (p : ArangoDB) (u : URL) (c : http_Client)
    (loginReq : Request) (jwtToken : LoginResponse) (r : Request)
    (resp : Response) (o : option liberror) (body : bytes) (stats : ArangoStats) :
  login_gives p u c loginReq jwtToken →
  http_NewRequest "GET" (URL_String u +:+ statsPostfix) None = inl r →
  let statsReq := Header_Set "Authorization" ("Bearer " +:+ Jwt jwtToken) r in
  Client_Do c statsReq = (Some resp, o) →
  Body resp = inl body →
  json_Unmarshal dec_ArangoStats body zero_ArangoStats = inl stats →
  length (Counts (RequestTime (Client stats))) < 6 →
  gatherURL p u =
    ([HTTP_Do loginReq; HTTP_Do statsReq],
     Panics (IndexOutOfRange (length (Counts (RequestTime (Client stats))))
                             (length (Counts (RequestTime (Client stats)))))).
Proof.
  intros [Hc Hl]%login_gives_eq Hn statsReq Hd Hb Hj Hlen.
  rewrite (gatherURL_after_login _ _ _ _ Hl).
  rewrite (fetchStats_sent _ _ _ _ _ Hc Hn). fold statsReq.
  rewrite Hd, Hb, Hj. by rewrite (clientFields_short _ Hlen).
Qed.

(** ** More on one fetch *)

(** What the login exchange does up to the answer of the client. *)
Lemma login_sent_eq p u c loginBodyJson loginReq :
  client p = Some c →
  json_Marshal {| lrUsername := Username p; lrPassword := Password p |}
    = inl loginBodyJson →
  http_NewRequest "POST" (URL_String u +:+ loginPostfix) (Some loginBodyJson)
    = inl loginReq →
  login p u =
    match Client_Do c loginReq with
    | (_, Some e) =>
        ([HTTP_Do loginReq],
         Return (Some (Errorf_ss "error making HTTP Login request to %s: %s" u e)))
    | (None, None) => ([HTTP_Do loginReq], Panic NilDereference)
    | (Some resp, None) =>
        match Body resp with
        | inr e => ([HTTP_Do loginReq],
                    Return (Some (Errorf_s "error reading token body: %s" e)))
        | inl body =>
            match json_Unmarshal dec_LoginResponse body zero_LoginResponse with
            | inl jwtToken => ([HTTP_Do loginReq], Next jwtToken)
            | inr e => ([HTTP_Do loginReq], Return (Some (Lib e)))
            end
        end
    end.
Proof.
  intros Hc Hm Hn. unfold login, client_Do.
  rewrite Hm; simpl. rewrite Hn; simpl. rewrite Hc; simpl.
  destruct (Client_Do c loginReq) as [[resp|] [e|]]; simpl; try done.
  destruct (Body resp) as [body|e]; [|done].
  by destruct (json_Unmarshal _ _ _).
Qed.

(** A login request that fails at the transport makes the fetch return the
    login error with the endpoint's URL and the client's error in it, after
    the login request alone, whatever response came with the error. *)
Theorem login_transport_error_returned (p : ArangoDB) (u : URL)
    (c : http_Client) (loginBodyJson : bytes) (loginReq : Request)
    (o : option Response) (e : liberror) :
  client p = Some c →
  json_Marshal {| lrUsername := Username p; lrPassword := Password p |}
    = inl loginBodyJson →
  http_NewRequest "POST" (URL_String u +:+ loginPostfix) (Some loginBodyJson)
    = inl loginReq →
  Client_Do c loginReq = (o, Some e) →
  gatherURL p u =
    ([HTTP_Do loginReq],
     Returns (Some (Errorf_ss "error making HTTP Login request to %s: %s" u e))).
Proof.
  intros Hc Hm Hn Hd. apply gatherURL_login_failed.
  rewrite (login_sent_eq _ _ _ _ _ Hc Hm Hn), Hd. by destruct o.
Qed.

(** When the body of the login response cannot be read, the fetch returns
    the token-body error with the reader's error in it, after the login
    request alone. *)
Theorem login_read_error_returned (p : ArangoDB) (u : URL) (c : http_Client)
    (loginReq : Request) (resp : Response) (e : liberror) :
  login_answered p u c loginReq resp →
  Body resp = inr e →
  gatherURL p u =
    ([HTTP_Do loginReq],
     Returns (Some (Errorf_s "error reading token body: %s" e))).
Proof.
  intros Ha Hb. apply gatherURL_login_failed.
  by rewrite (login_answered_eq _ _ _ _ _ Ha), Hb.
Qed.

(** After a login that gave a token, when the client hands back a response
    for the statistics request, the value it returns as error is never
    looked at.  A body that cannot be read makes the fetch return the
    stats-body error, a body that does not decode the decoder's error;
    both after the two requests and without a record. *)
Theorem stats_errors_returned (p : ArangoDB) (u : URL) (c : http_Client)
    (loginReq : Request) (jwtToken : LoginResponse) (r : Request)
    (resp : Response) (o : option liberror) :
  login_gives p u c loginReq jwtToken →
  http_NewRequest "GET" (URL_String u +:+ statsPostfix) None = inl r →
  let statsReq := Header_Set "Authorization" ("Bearer " +:+ Jwt jwtToken) r in
  Client_Do c statsReq = (Some resp, o) →
  (∀ e, Body resp = inr e →
     gatherURL p u =
       ([HTTP_Do loginReq; HTTP_Do statsReq],
        Returns (Some (Errorf_s "error reading stats body: %s" e)))) ∧
  (∀ body e, Body resp = inl body →
     json_Unmarshal dec_ArangoStats body zero_ArangoStats = inr e →
     gatherURL p u =
       ([HTTP_Do loginReq; HTTP_Do statsReq], Returns (Some (Lib e)))).
Proof.
  intros [Hc Hl]%login_gives_eq Hn statsReq Hd.
  rewrite (gatherURL_after_login _ _ _ _ Hl).
  rewrite (fetchStats_sent _ _ _ _ _ Hc Hn). fold statsReq. rewrite Hd.
  split.
  - intros e Hb. by rewrite Hb.
  - intros body e Hb Hj. by rewrite Hb, Hj.
Qed.

(** After a login that gave a token, a statistics response whose body
    decodes to a payload with at least six bucket counts makes the fetch
    return nil, its events being the two requests and the three records;
    neither the status code of the response nor the value returned as
    error beside it matters. *)
Theorem fetch_succeeds (p : ArangoDB) (u : URL) (c : http_Client)
    (loginReq : Request) (jwtToken : LoginResponse) (r : Request)
    (status : Z) (o : option liberror) (body : bytes) (stats : ArangoStats) :
  login_gives p u c loginReq jwtToken →
  http_NewRequest "GET" (URL_String u +:+ statsPostfix) None = inl r →
  let statsReq := Header_Set "Authorization" ("Bearer " +:+ Jwt jwtToken) r in
  Client_Do c statsReq = (Some {| StatusCode := status; Body := inl body |}, o) →
  json_Unmarshal dec_ArangoStats body zero_ArangoStats = inl stats →
  (6 ≤ length (Counts (RequestTime (Client stats))))%nat →
  ∃ clientFields_,
    clientFields stats = ([], Next clientFields_) ∧
    gatherURL p u =
      ([HTTP_Do loginReq; HTTP_Do statsReq;
        AddFields "arangodb_system" (systemFields stats) {["url" := URL_String u]};
        AddFields "arangodb_server" (serverFields stats) {["url" := URL_String u]};
        AddFields "arangodb_client" clientFields_ {["url" := URL_String u]}],
       Returns None).
Proof.
  intros [Hc Hl]%login_gives_eq Hn statsReq Hd Hj Hlen.
  rewrite (gatherURL_after_login _ _ _ _ Hl).
  rewrite (fetchStats_sent _ _ _ _ _ Hc Hn). fold statsReq. rewrite Hd. simpl.
  rewrite Hj.
  destruct (Counts (RequestTime (Client stats)))
    as [|c0 [|c1 [|c2 [|c3 [|c4 [|c5 rest]]]]]] eqn:Hcs; simpl in Hlen; try lia.
  rewrite (clientFields_six _ _ _ _ _ _ _ _ Hcs). eauto.
Qed.

(** How the parts end, and what events they make. *)
Lemma login_flow p u :
  match (login p u).2 with
  | Next _ => True
  | Return err =>
      (∃ e, err = Some (Lib e)) ∨
      (∃ e, err = Some (Errorf_ss "error making HTTP Login request to %s: %s" u e)) ∨
      (∃ e, err = Some (Errorf_s "error reading token body: %s" e))
  | Panic x => x = NilDereference
  end.
Proof.
  unfold login, client_Do, check, deref, bind, ret, emit, return_, panics.
  repeat (case_match; simplify_eq/=); eauto.
Qed.

Lemma fetchStats_flow p u jwtToken :
  match (fetchStats p u jwtToken).2 with
  | Next _ => True
  | Return err =>
      (∃ e, err = Some (Lib e)) ∨
      (∃ e, err = Some (Errorf_s "error reading stats body: %s" e))
  | Panic x => x = NilDereference
  end.
Proof.
  unfold fetchStats, statsRequest, client_Do, check, deref, bind, ret, emit,
    return_, panics.
  repeat (case_match; simplify_eq/=); eauto.
Qed.

Lemma clientFields_flow stats :
  match (clientFields stats).2 with
  | Next _ => True
  | Return _ => False
  | Panic x => ∃ n, n < 6 ∧ x = IndexOutOfRange n n
  end.
Proof.
  unfold clientFields, index, bind, ret, panics.
  destruct (Counts _) as [|c0 [|c1 [|c2 [|c3 [|c4 [|c5 rest]]]]]]; simpl;
    try done; eexists; (split; [|reflexivity]); lia.
Qed.

Lemma login_events p u :
  ((login p u).1 = [] ∧ ∀ jwtToken, (login p u).2 ≠ Next jwtToken) ∨
  ∃ loginReq, (login p u).1 = [HTTP_Do loginReq].
Proof.
  unfold login, client_Do, check, deref, bind, ret, emit, return_, panics.
  repeat (case_match; simplify_eq/=); eauto.
Qed.

Lemma fetchStats_events p u jwtToken :
  ((fetchStats p u jwtToken).1 = [] ∧
   ∀ stats, (fetchStats p u jwtToken).2 ≠ Next stats) ∨
  ∃ r, http_NewRequest "GET" (URL_String u +:+ statsPostfix) None = inl r ∧
       (fetchStats p u jwtToken).1 =
         [HTTP_Do (Header_Set "Authorization" ("Bearer " +:+ Jwt jwtToken) r)].
Proof.
  unfold fetchStats, statsRequest, client_Do, check, deref, bind, ret, emit,
    return_, panics.
  repeat (case_match; simplify_eq/=); eauto.
Qed.

(** However a fetch ends, it ends in one of seven ways: it returns nil, a
    library error passed on, the login error for its own URL, one of the
    two body errors, or it panics on a nil pointer or on a bucket index
    below six.  The error of line 143 for a failed statistics request is
    never returned. *)
Theorem gatherURL_exits (p : ArangoDB) (u : URL) :
  reachable_exit u (gatherURL p u).2 ∧
  ∀ u' e, (gatherURL p u).2 ≠
    Returns (Some (Errorf_ss "error making HTTP Stats request to %s: %s" u' e)).
Proof.
  assert (reachable_exit u (gatherURL p u).2) as Hr.
  { unfold reachable_exit.
    pose proof (login_flow p u) as Hlf.
    destruct (login p u) as [w0 [jwtToken|err|x]] eqn:Hl; simpl in Hlf.
    2: { rewrite (proj1 (gatherURL_login_failed p u w0) _ Hl). simpl.
         destruct Hlf as [[e ->]|[[e ->]|[e ->]]]; eauto 10. }
    2: { rewrite (proj2 (gatherURL_login_failed p u w0) _ Hl). subst. eauto 10. }
    rewrite (gatherURL_after_login _ _ _ _ Hl).
    pose proof (fetchStats_flow p u jwtToken) as Hff.
    destruct (fetchStats p u jwtToken) as [w1 [stats|err|x]]; simpl in Hff.
    2: { simpl. destruct Hff as [[e ->]|[e ->]]; eauto 10. }
    2: { simpl. subst. eauto 10. }
    pose proof (clientFields_flow stats) as Hcf.
    destruct (clientFields stats) as [w2 [cf|err|x]]; simpl in *;
      [eauto 10|done|].
    destruct Hcf as (n & Hn & ->). do 6 right. eauto. }
  split; [done|]. intros u' e Heq. rewrite Heq in Hr.
  unfold reachable_exit in Hr.
  destruct Hr as [?|[[? ?]|[[? ?]|[[? ?]|[[? ?]|[?|(? & _ & ?)]]]]]]; done.
Qed.

(** The events of a fetch are at most two requests followed by its
    records, and nothing else: a fetch never calls [AddError] and never
    logs.  A second request is the statistics request, with the
    Authorization header made from the token that the login exchange gave;
    there are records only after both requests. *)
Theorem gatherURL_events (p : ArangoDB) (u : URL) :
  ∃ reqs : list Request,
    (gatherURL p u).1 =
      (HTTP_Do <$> reqs) ++
      ((λ r, AddFields r.1.1 r.1.2 r.2) <$> records (gatherURL p u).1) ∧
    (length reqs ≤ 2)%nat ∧
    (∀ statsReq, reqs !! 1 = Some statsReq →
       ∃ w jwtToken r,
         login p u = (w, Next jwtToken) ∧
         http_NewRequest "GET" (URL_String u +:+ statsPostfix) None = inl r ∧
         statsReq = Header_Set "Authorization" ("Bearer " +:+ Jwt jwtToken) r) ∧
    (records (gatherURL p u).1 ≠ [] → length reqs = 2).
Proof.
  destruct (login_events p u) as [[Hw0 Hnn]|[loginReq Hw0]];
    destruct (login p u) as [w0 [jwtToken|err|x]] eqn:Hl; simpl in *; subst;
    try (by destruct (Hnn jwtToken));
    try (rewrite (proj1 (gatherURL_login_failed p u _) _ Hl));
    try (rewrite (proj2 (gatherURL_login_failed p u _) _ Hl));
    try (by exists []; split_and!; [done|simpl; lia|done|done]);
    try (by exists [loginReq]; split_and!; [done|simpl; lia|done|done]).
  rewrite (gatherURL_after_login _ _ _ _ Hl).
  destruct (fetchStats_events p u jwtToken) as [[Hw1 Hns]|(r & Hn & Hw1)];
    destruct (fetchStats p u jwtToken) as [w1 [stats|err|x]] eqn:Hf;
    simpl in *; subst;
    try (by destruct (Hns stats));
    try (by exists [loginReq]; split_and!; [done|simpl; lia|done|done]);
    try (by exists [loginReq; Header_Set "Authorization" ("Bearer " +:+ Jwt jwtToken) r];
         split_and!; [done|simpl; lia|intros ? [= <-]; eauto 10|done]).
  destruct (clientFields stats) as [w2 [cf|err|x]] eqn:Hcs;
    destruct (clientFields_pure _ _ _ Hcs) as [-> _]; simpl;
    exists [loginReq; Header_Set "Authorization" ("Bearer " +:+ Jwt jwtToken) r];
    (split_and!; [done|simpl; lia|intros ? [= <-]; eauto 10|done]).
Qed.

(** ** More on the cycle *)

Lemma step_interleaved c c' base t :
  step c c' → trace c = base ++ t → interleaved (made <$> pool c) t →
  ∃ t', trace c' = base ++ t' ∧ interleaved (made <$> pool c') t'.
Proof.
  intros Hs Ht Hi. destruct Hs as [c i g e rest Hg Htd]. simpl.
  exists (t ++ [e]). split; [by rewrite Ht, app_assoc|].
  rewrite list_fmap_insert. simpl. apply interleaved_snoc; [|done].
  by rewrite list_lookup_fmap, Hg.
Qed.

Lemma runs_interleaved c c' r base : ∀ t,
  runs c c' r → trace c = base ++ t → interleaved (made <$> pool c) t →
  ∃ t', trace c' = base ++ t' ∧ interleaved (made <$> pool c') t'.
Proof.
  intros t Hr. revert t. induction Hr as [c|c g x|c c' c'' r Hs Hr IH];
    intros t Ht Hi; eauto.
  destruct (step_interleaved _ _ _ _ Hs Ht Hi) as (t' & Ht' & Hi'). eauto.
Qed.

(** The events of a run: the skip messages, then those of the goroutines
    interleaved. *)
Lemma Gather_trace_interleaved p c r :
  Gather p c r →
  ∃ t, trace c = omap skipped (Urls p) ++ t ∧ interleaved (made <$> pool c) t.
Proof.
  unfold Gather. rewrite Gather_launch_eq. intros Hg.
  apply (runs_interleaved _ _ _ (omap skipped (Urls p)) [] Hg).
  - simpl. by rewrite app_nil_r.
  - apply interleaved_start. simpl. rewrite <-list_fmap_compose.
    apply Forall_fmap, Forall_true. intros u. simpl. unfold go.
    by destruct (gatherURL _ u) as [w [e|x]].
Qed.

(** In every run of a cycle, however it ends, the events come in this
    order: first the skip messages of the strings that do not parse, in
    the order of the URL list; then the events of the goroutines
    interleaved, those of one goroutine in the order in which its fetch
    makes them.  What the goroutine of a URL has made is a prefix of the
    events of the fetch of that URL followed by its call of [AddError],
    and all of them when [Gather] returns. *)
Theorem Gather_keeps_order (p : ArangoDB) (c : cycle) (r : cycle_end) :
  let p' := set_client p (createHttpClient p).1 in
  Gather p c r →
  (∃ t, trace c = omap skipped (Urls p) ++ t ∧
        interleaved (made <$> pool c) t) ∧
  Forall2 (λ u g, made g `prefix_of` fetch_events p' u ∧
                  (∀ e, r = Returned e → made g = fetch_events p' u))
          (omap parsed (Urls p)) (pool c).
Proof.
  intros p' Hg. split; [by eapply Gather_trace_interleaved|].
  - pose proof (Gather_pool _ _ _ Hg) as Hp. fold p' in Hp.
    assert (∀ e, r = Returned e → Forall ended (pool c)) as Hf.
    { intros e ->. unfold Gather in Hg. rewrite Gather_launch_eq in Hg.
      by apply runs_end in Hg as [_ ?]. }
    assert (Forall (λ g, ∀ e, r = Returned e → ended g) (pool c)) as Hf'.
    { apply Forall_forall. intros g Hin e He.
      specialize (Hf e He). rewrite Forall_forall in Hf. by apply Hf. }
    clear Hf Hg. induction Hp as [|u g us gs (Hs & He & Hpre) Hp IH];
      [constructor|].
    apply Forall_cons in Hf' as [Hg Hgs]. constructor; [|by apply IH].
    rewrite <-Hs. split; [done|]. intros e Hr.
    unfold script. by rewrite (Hg e Hr), app_nil_r.
Qed.

(** The run in launch order crashes at the first goroutine that
    panics. *)
Lemma run_in_order_crashes gs : ∀ before t g x,
  g ∈ gs → ending g = Some x → ∃ y, (run_in_order before gs t).2 = Crashed y.
Proof.
  induction gs as [|g' gs IH]; intros before t g x Hg Hx.
  { by apply elem_of_nil in Hg. }
  simpl. destruct (ending g') as [y|] eqn:Hy; [by eauto|].
  apply elem_of_cons in Hg as [->|Hg]; [congruence|]. by eapply IH.
Qed.

(** A fetch that panics ends the process, and is never reported.  When
    the fetch of a parsed URL panics, every run of [Gather] ends in one
    of two ways, and both happen: the process crashes before [Gather]
    returns, by the panic of the fetch of a parsed URL; or [Gather]
    returns nil while the goroutine of that fetch has panicked, so that
    the process ends after the return.  In no run does the goroutine of
    that URL call [AddError]. *)
Theorem Gather_dies_when_a_fetch_panics (p : ArangoDB) (u : URL) (x : panic) :
  let p' := set_client p (createHttpClient p).1 in
  u ∈ omap parsed (Urls p) →
  (gatherURL p' u).2 = Panics x →
  (∃ c y, Gather p c (Crashed y)) ∧
  (∃ c, Gather p c (Returned None)) ∧
  (∀ c r, Gather p c r →
     ((∃ u' y, r = Crashed y ∧ u' ∈ omap parsed (Urls p) ∧
               (gatherURL p' u').2 = Panics y) ∨
      (r = Returned None ∧ dying c x)) ∧
     (∀ i g, omap parsed (Urls p) !! i = Some u → pool c !! i = Some g →
        ∀ e, AddError e ∉ made g)).
Proof.
  intros p' Hu Hx.
  assert (go p' u ∈ go p' <$> omap parsed (Urls p)) as Hgo.
  { apply list_elem_of_fmap. by exists u. }
  assert (ending (go p' u) = Some x) as Hend by (by rewrite ending_go, Hx).
  split_and!.
  - pose proof (Gather_in_order_runs p) as Hr.
    unfold Gather_in_order in Hr. rewrite Gather_launch_eq in Hr. fold p' in Hr.
    simpl in Hr.
    destruct (run_in_order_crashes _ [] (omap skipped (Urls p)) _ _ Hgo Hend)
      as [y Hy].
    rewrite Hy in Hr. eauto.
  - eexists. apply Gather_to_return_runs.
  - intros c r Hg. split.
    + unfold Gather in Hg. rewrite Gather_launch_eq in Hg. fold p' in Hg.
      destruct r as [e|y].
      * right. pose proof (runs_end _ _ _ Hg) as [-> _]. split; [done|].
        by eapply runs_dying.
      * left. apply runs_crash_cause in Hg as (g & Hg & Hy). simpl in Hg.
        apply list_elem_of_fmap in Hg as (u' & -> & Hu').
        exists u', y. split_and!; [done..|].
        rewrite ending_go in Hy. by destruct ((gatherURL p' u').2); simplify_eq.
    + intros i g Hi Hgi e He.
      pose proof (Gather_pool _ _ _ Hg) as Hp. fold p' in Hp.
      destruct (Forall2_lookup_lr _ _ _ _ _ _ Hp Hi Hgi) as (Hs & _ & Hpre).
      assert (AddError e ∈ fetch_events p' u) as Hin.
      { rewrite <-Hs. destruct Hpre as [k ->]. apply elem_of_app. by left. }
      unfold fetch_events in Hin. rewrite Hx, app_nil_r in Hin.
      pose proof (gatherURL_quiet p' u) as Hq. rewrite Forall_forall in Hq.
      by apply Hq in Hin.
Qed.

(** With no string of the URL list that parses, the configuration of
    [init] with its empty list among them, [Gather] launches nothing: its
    only run writes one skip message for each string, in order, makes no
    request and no call of the accumulator, and returns nil. *)
Theorem Gather_without_parsable_url (p : ArangoDB) :
  Forall (λ s, parsed s = None) (Urls p) →
  Gather p {| pool := []; trace := omap skipped (Urls p) |} (Returned None) ∧
  (∀ c r, Gather p c r →
     r = Returned None ∧ pool c = [] ∧ trace c = omap skipped (Urls p) ∧
     length (trace c) = length (Urls p)) ∧
  (Urls p = Urls init_ArangoDB →
     ∀ c r, Gather p c r → c = {| pool := []; trace := [] |}).
Proof.
  intros Hn.
  assert (omap parsed (Urls p) = []) as Hnil.
  { induction Hn as [|s urls Hs _ IH]; [done|]. csimpl. by rewrite Hs. }
  assert (length (omap skipped (Urls p)) = length (Urls p)) as Hlen.
  { clear Hnil. induction Hn as [|s urls Hs _ IH]; [done|]. csimpl.
    unfold parsed in Hs. unfold skipped at 1.
    destruct (url_Parse s); [done|]. simpl. by rewrite IH. }
  assert (∀ c r, Gather p c r →
     r = Returned None ∧ pool c = [] ∧ trace c = omap skipped (Urls p)) as Hall.
  { intros c r Hg.
    destruct (Gather_trace_interleaved _ _ _ Hg) as (t & Ht & Hi).
    pose proof (Gather_pool _ _ _ Hg) as Hp.
    rewrite Hnil in Hp. apply Forall2_nil_inv_l in Hp.
    rewrite Hp in Hi. simpl in Hi.
    assert (t = []) as ->.
    { inversion Hi as [|ls i l x t' Hl _ Heq]; [done|].
      destruct ls; [done|]. by destruct i. }
    rewrite app_nil_r in Ht. split_and!; [|done..].
    unfold Gather in Hg. rewrite Gather_launch_eq in Hg.
    apply (runs_returns _ _ _ Hg). simpl. rewrite Hnil. constructor. }
  split_and!.
  - unfold Gather. rewrite Gather_launch_eq, Hnil. simpl.
    apply runs_wait. constructor.
  - intros c r Hg. destruct (Hall _ _ Hg) as (-> & Hp & Ht).
    split_and!; [done..|]. by rewrite Ht.
  - intros Hu c r Hg. destruct (Hall _ _ Hg) as (_ & Hp & Ht).
    rewrite Hu in Ht. simpl in Ht. destruct c. simpl in *. by subst.
Qed.

(** The client of a cycle is made anew: every goroutine of a run works
    with a client that has keep-alives disabled and the configured
    response timeout, whatever client the plugin held from an earlier
    cycle, and a call of [Gather] goes the same way with any earlier
    client as with none. *)
Theorem Gather_makes_its_client (p : ArangoDB) (c0 : http_Client) :
  let fresh := {| DisableKeepAlives := true; Timeout := ResponseTimeout p |} in
  createHttpClient (set_client p c0) = (fresh, None) ∧
  (∀ c r, Gather (set_client p c0) c r ↔ Gather p c r) ∧
  (∀ c r, Gather p c r →
     Forall2 (λ u g, script g = fetch_events (set_client p fresh) u)
             (omap parsed (Urls p)) (pool c)).
Proof.
  intros fresh. split_and!; [done| |].
  - intros c r. unfold Gather. by rewrite !Gather_launch_eq.
  - intros c r Hg. eapply Forall2_impl; [exact (Gather_pool _ _ _ Hg)|].
    by intros u g (Hs & _).
Qed.

End Properties.

(** * The model at work: concrete cycles *)

Section Concrete.
#[local] Existing Instance Demo.env.

(** Server b logs in and then refuses the statistics request: the fetch
    panics. *)
Lemma stats_transport_error_panics_at_b :
  Demo.Do Demo.client0
     (Header_Set "Authorization" "Bearer tokB" (Demo.statsReq "http://b:8529"))
    = (None, Some (OtherError "connection refused")) ∧
  gatherURL (Demo.ready []) (Demo.url "http://b:8529") =
    ([HTTP_Do (Demo.loginReq "http://b:8529");
      HTTP_Do (Header_Set "Authorization" "Bearer tokB"
                 (Demo.statsReq "http://b:8529"))],
     Panics NilDereference).
Proof.
  split; [reflexivity|].
  apply (stats_transport_error_panics (Demo.ready []) (Demo.url "http://b:8529")
           Demo.client0 (Demo.loginReq "http://b:8529") {| Jwt := "tokB" |}
           (Demo.statsReq "http://b:8529") (OtherError "connection refused")).
  - eexists _, _. split_and!; [eexists; split_and!|..]; reflexivity.
  - reflexivity.
  - reflexivity.
Defined.

(** Server a is healthy: three records, tagged with its URL. *)
Lemma successful_fetch_three_records_at_a :
  ∃ w sys srv cli,
    gatherURL (Demo.ready []) (Demo.url "http://a:8529") = (w, Returns None) ∧
    records w =
      [("arangodb_system", sys, {["url" := "http://a:8529"]});
       ("arangodb_server", srv, {["url" := "http://a:8529"]});
       ("arangodb_client", cli, {["url" := "http://a:8529"]})].
Proof.
  assert (gatherURL (Demo.ready []) (Demo.url "http://a:8529") =
            ((gatherURL (Demo.ready []) (Demo.url "http://a:8529")).1,
             Returns None)) as Hg by (vm_compute; reflexivity).
  destruct (successful_fetch_three_records _ _ _ Hg) as (stats & cf & _ & Hw).
  eexists _, _, _, _. split; [exact Hg|exact Hw].
Defined.

(** The token of server a has a slash, a plus and equals signs. *)
Lemma bearer_header_verbatim_at_a :
  ∃ statsReq rest,
    (gatherURL (Demo.ready []) (Demo.url "http://a:8529")).1 =
      HTTP_Do (Demo.loginReq "http://a:8529") :: HTTP_Do statsReq :: rest ∧
    Header_Get "Authorization" statsReq = "Bearer tok/A+1==".
Proof.
  destruct (bearer_header_verbatim (Demo.ready []) (Demo.url "http://a:8529")
              Demo.client0 (Demo.loginReq "http://a:8529")
              {| Jwt := "tok/A+1==" |} (Demo.statsReq "http://a:8529"))
    as [(statsReq & rest & Hg & _ & Hh & _) _].
  - eexists _, _. split_and!; [eexists; split_and!|..]; reflexivity.
  - reflexivity.
  - exists statsReq, rest. split; [exact Hg|exact Hh].
Defined.

(** Server d answers the login with status 403 and a body that decodes:
    the login succeeds.  Server e answers with status 200 and a page that
    is not JSON: the fetch returns the decoder's error. *)
Lemma login_decided_by_decoding_at_d_and_e :
  login (Demo.ready []) (Demo.url "http://d:8529") =
    ([HTTP_Do (Demo.loginReq "http://d:8529")], Next {| Jwt := "t-403" |}) ∧
  gatherURL (Demo.ready []) (Demo.url "http://e:8529") =
    ([HTTP_Do (Demo.loginReq "http://e:8529")], Returns (Some (Lib SyntaxError))).
Proof.
  split.
  - apply (login_decided_by_decoding (Demo.ready []) (Demo.url "http://d:8529")
             Demo.client0 (Demo.loginReq "http://d:8529") 403
             (Demo.text (Demo.tokenDoc "t-403"))).
    eexists. split_and!; reflexivity.
  - apply (login_decided_by_decoding (Demo.ready []) (Demo.url "http://e:8529")
             Demo.client0 (Demo.loginReq "http://e:8529") 200
             (list_byte_of_string "<html>")).
    eexists. split_and!; reflexivity.
Defined.

(** Server f answers the login with an empty object. *)
Lemma empty_token_proceeds_at_f :
  ∃ statsReq rest,
    (gatherURL (Demo.ready []) (Demo.url "http://f:8529")).1 =
      HTTP_Do (Demo.loginReq "http://f:8529") :: HTTP_Do statsReq :: rest ∧
    Header_Get "Authorization" statsReq = "Bearer ".
Proof.
  destruct (empty_token_proceeds (Demo.ready []) (Demo.url "http://f:8529")
              Demo.client0 (Demo.loginReq "http://f:8529") 200
              (Demo.text (JObj [])) [] (Demo.statsReq "http://f:8529"))
    as (_ & statsReq & rest & Hg & _ & Hh).
  - eexists. split_and!; reflexivity.
  - reflexivity.
  - constructor.
  - reflexivity.
  - exists statsReq, rest. split; [exact Hg|exact Hh].
Defined.

(** C2.  What the code does in a cycle over server b alone, which logs in
    and then refuses the statistics request.  The goroutine of b panics on
    the nil response, and every run of [Gather] ends in one of two ways,
    both of which happen: the process crashes before [Gather] returns, or
    [Gather] returns nil with the goroutine panicked and the process about
    to end.  In no run is the failure of b passed to [AddError]. *)
Theorem Gather_never_reports_refused_stats :
  let p := Demo.config ["http://b:8529"] in
  Gather p (Gather_in_order p).1 (Crashed NilDereference) ∧
  Gather p (Gather_to_return p).1 (Returned None) ∧
  (∀ c r, Gather p c r →
     (r = Crashed NilDereference ∨
      r = Returned None ∧ dying c NilDereference) ∧
     ∀ e, AddError e ∉ trace c).
Proof.
  intros p. split_and!.
  { change (Crashed NilDereference) with (Gather_in_order p).2.
    apply Gather_in_order_runs. }
  { apply Gather_to_return_runs. }
  intros c r. unfold Gather. rewrite Gather_launch_eq. simpl.
  set (g := go _ _). intros Hr.
  assert (g = {| made := [];
                 todo := [HTTP_Do (Demo.loginReq "http://b:8529");
                          HTTP_Do (Header_Set "Authorization" "Bearer tokB"
                                     (Demo.statsReq "http://b:8529"))];
                 ending := Some NilDereference |}) as Hg
    by (vm_compute; reflexivity).
  clearbody g. split.
  - destruct r as [e|y].
    + right. pose proof (runs_end _ _ _ Hr) as [-> _]. split; [done|].
      apply (runs_dying _ _ _ g _ Hr); [by left|by rewrite Hg].
    + left. apply runs_crash_cause in Hr as (g' & Hg' & Hx).
      apply list_elem_of_singleton in Hg' as ->. rewrite Hg in Hx.
      by simplify_eq/=.
  - intros e He.
    pose proof (runs_trace _ _ _ [] Hr) as Ht. simpl in Ht.
    rewrite Hg in Ht at 1. simpl in Ht.
    specialize (Ht (reflexivity _)). rewrite Ht in He.
    apply runs_advanced in Hr. simpl in Hr.
    apply Forall2_cons_inv_l in Hr as (g' & gs & (Hs & _ & _) & Hnil & Hpc).
    apply Forall2_nil_inv_l in Hnil as ->. rewrite Hpc in He.
    simpl in He. rewrite app_nil_r in He.
    assert (AddError e ∈ script g') as Hin.
    { unfold script. apply elem_of_app. by left. }
    rewrite Hs, Hg in Hin. unfold script in Hin. simpl in Hin.
    rewrite !elem_of_cons, elem_of_nil in Hin. by destruct Hin as [?|[?|[]]].
Qed.

(** C5.  What the code does in a cycle over server b, which logs in and
    then refuses the statistics request, and the healthy server a.  On
    its own the fetch of a returns nil with its three records, and the
    fetch of b panics without a record.  In the run in launch order the
    panic of the goroutine of b ends the process before the goroutine of
    a has made a single event: the cycle has no record at all, none of
    the three of a among them. *)
Theorem healthy_endpoint_loses_its_records :
  let p := Demo.config ["http://b:8529"; "http://a:8529"] in
  let p' := set_client p (createHttpClient p).1 in
  (gatherURL p' (Demo.url "http://a:8529")).2 = Returns None ∧
  length (records (gatherURL p' (Demo.url "http://a:8529")).1) = 3%nat ∧
  gatherURL p' (Demo.url "http://b:8529") =
    ([HTTP_Do (Demo.loginReq "http://b:8529");
      HTTP_Do (Header_Set "Authorization" "Bearer tokB"
                 (Demo.statsReq "http://b:8529"))],
     Panics NilDereference) ∧
  Gather p (Gather_in_order p).1 (Crashed NilDereference) ∧
  trace (Gather_in_order p).1 =
    [HTTP_Do (Demo.loginReq "http://b:8529");
     HTTP_Do (Header_Set "Authorization" "Bearer tokB"
                (Demo.statsReq "http://b:8529"))] ∧
  records (trace (Gather_in_order p).1) = [].
Proof.
  intros p p'. split_and!; try (vm_compute; reflexivity).
  change (Crashed NilDereference) with (Gather_in_order p).2.
  apply Gather_in_order_runs.
Qed.

(** A cycle over server a, a string that does not parse, and server c,
    which refuses the login: no fetch panics and [Gather] returns nil. *)
Lemma Gather_returns_nil_at_a_and_c :
  ∃ c, Gather (Demo.config ["http://a:8529"; Demo.badURL; "http://c:8529"]) c
         (Returned None).
Proof.
  apply (Gather_returns_nil_without_panic
           (Demo.config ["http://a:8529"; Demo.badURL; "http://c:8529"])).
  repeat constructor; intros x; vm_compute; discriminate.
Defined.

(** Server g serves two bucket counts. *)
Lemma short_histogram_panics_at_g :
  gatherURL (Demo.ready []) (Demo.url "http://g:8529") =
    ([HTTP_Do (Demo.loginReq "http://g:8529");
      HTTP_Do (Header_Set "Authorization" "Bearer tokB"
                 (Demo.statsReq "http://g:8529"))],
     Panics (IndexOutOfRange 2 2)).
Proof.
  assert (∃ stats,
            json_Unmarshal dec_ArangoStats
              (Demo.text (Demo.statsDoc [JNum "1"; JNum "2"])) zero_ArangoStats
              = inl stats ∧
            length (Counts (RequestTime (Client stats))) = 2)
    as (stats & Hs & Hlen) by (eexists; split; vm_compute; reflexivity).
  rewrite <-Hlen.
  apply (short_histogram_panics (Demo.ready []) (Demo.url "http://g:8529")
           Demo.client0 (Demo.loginReq "http://g:8529") {| Jwt := "tokB" |}
           (Demo.statsReq "http://g:8529")
           {| StatusCode := 200;
              Body := inl (Demo.text (Demo.statsDoc [JNum "1"; JNum "2"])) |}
           None (Demo.text (Demo.statsDoc [JNum "1"; JNum "2"])) stats).
  - eexists _, _. split_and!; [eexists; split_and!|..]; reflexivity.
  - reflexivity.
  - reflexivity.
  - reflexivity.
  - exact Hs.
  - rewrite Hlen. lia.
Defined.

(** The cycle over server a, a string that does not parse, and server c,
    run in launch order: one skip message, the three records of a, and
    the two calls of [AddError], nil for a and the login error for c. *)
Example cycle_at_a_and_c :
  let x := Gather_in_order
             (Demo.config ["http://a:8529"; Demo.badURL; "http://c:8529"]) in
  x.2 = Returned None ∧
  omap (λ e, match e with Log_Printf _ s _ => Some s | _ => None end) (trace x.1)
    = [Demo.badURL] ∧
  (λ r, (r.1.1, r.2)) <$> records (trace x.1)
    = [("arangodb_system", {["url" := "http://a:8529"]});
       ("arangodb_server", {["url" := "http://a:8529"]});
       ("arangodb_client", {["url" := "http://a:8529"]})] ∧
  omap (λ e, match e with AddError err => Some err | _ => None end) (trace x.1)
    = [None;
       Some (Errorf_ss "error making HTTP Login request to %s: %s"
               (Demo.url "http://c:8529") (OtherError "connection refused"))].
Proof. vm_compute. by split_and!. Qed.

End Concrete.

Section Concrete_more.
#[local] Existing Instance Demo.env.

(** Server c refuses the login. *)
Lemma login_transport_error_returned_at_c :
  gatherURL (Demo.ready []) (Demo.url "http://c:8529") =
    ([HTTP_Do (Demo.loginReq "http://c:8529")],
     Returns (Some (Errorf_ss "error making HTTP Login request to %s: %s"
                      (Demo.url "http://c:8529")
                      (OtherError "connection refused")))).
Proof.
  apply (login_transport_error_returned (Demo.ready []) (Demo.url "http://c:8529")
           Demo.client0
           (Demo.text (JObj [("username", JStr "root"); ("password", JStr "root")]))
           (Demo.loginReq "http://c:8529") None (OtherError "connection refused"));
    reflexivity.
Defined.

(** A cycle over the healthy server a and server b, which refuses the
    statistics request. *)
Lemma Gather_dies_at_a_and_b :
  (∃ c y, Gather (Demo.config ["http://a:8529"; "http://b:8529"]) c (Crashed y)) ∧
  (∃ c, Gather (Demo.config ["http://a:8529"; "http://b:8529"]) c (Returned None)).
Proof.
  destruct (Gather_dies_when_a_fetch_panics
              (Demo.config ["http://a:8529"; "http://b:8529"])
              (Demo.url "http://b:8529") NilDereference)
    as (Hcrash & Hret & _).
  - apply (list_elem_of_lookup_2 _ 1%nat). reflexivity.
  - vm_compute. reflexivity.
  - split; [exact Hcrash|exact Hret].
Defined.

(** A list with one string, which does not parse. *)
Lemma Gather_without_parsable_url_at_bad :
  Gather (Demo.config [Demo.badURL])
    {| pool := [];
       trace := [Log_Printf "arangodb: Could not parse %s, skipping. Error: %s"
                   Demo.badURL (OtherError "invalid control character in URL")] |}
    (Returned None).
Proof.
  destruct (Gather_without_parsable_url (Demo.config [Demo.badURL]))
    as [Hg _].
  - repeat constructor.
  - exact Hg.
Defined.

(** The run in launch order over server a, a string that does not parse,
    and server c. *)
Lemma Gather_keeps_order_at_a_and_c :
  let p := Demo.config ["http://a:8529"; Demo.badURL; "http://c:8529"] in
  ∃ t, trace (Gather_in_order p).1 =
         [Log_Printf "arangodb: Could not parse %s, skipping. Error: %s"
            Demo.badURL (OtherError "invalid control character in URL")] ++ t ∧
       interleaved (made <$> pool (Gather_in_order p).1) t.
Proof.
  intros p.
  destruct (Gather_keeps_order p (Gather_in_order p).1 (Gather_in_order p).2)
    as [Ht _].
  - apply Gather_in_order_runs.
  - exact Ht.
Defined.

End Concrete_more.

Section Concrete2.
#[local] Existing Instance Demo2.env.

(** Server k answers the login, but its body cannot be read. *)
Lemma login_read_error_returned_at_k :
  gatherURL (Demo.ready []) (Demo2.url "http://k:8529") =
    ([HTTP_Do (Demo.loginReq "http://k:8529")],
     Returns (Some (Errorf_s "error reading token body: %s"
                      (OtherError "unexpected EOF")))).
Proof.
  apply (login_read_error_returned (Demo.ready []) (Demo2.url "http://k:8529")
           Demo.client0 (Demo.loginReq "http://k:8529")
           (Demo2.unreadable 200 "unexpected EOF")).
  - eexists. split_and!; reflexivity.
  - reflexivity.
Defined.

(** Server l redirects the statistics request without end: the error of
    the client is not looked at, the closed body gives the read error.
    Server m serves a page that is not JSON. *)
Lemma stats_errors_returned_at_l_and_m :
  gatherURL (Demo.ready []) (Demo2.url "http://l:8529") =
    ([HTTP_Do (Demo.loginReq "http://l:8529");
      HTTP_Do (Header_Set "Authorization" "Bearer tokB"
                 (Demo.statsReq "http://l:8529"))],
     Returns (Some (Errorf_s "error reading stats body: %s"
                      (OtherError "http: read on closed response body")))) ∧
  gatherURL (Demo.ready []) (Demo2.url "http://m:8529") =
    ([HTTP_Do (Demo.loginReq "http://m:8529");
      HTTP_Do (Header_Set "Authorization" "Bearer tokB"
                 (Demo.statsReq "http://m:8529"))],
     Returns (Some (Lib SyntaxError))).
Proof.
  split.
  - destruct (stats_errors_returned (Demo.ready []) (Demo2.url "http://l:8529")
                Demo.client0 (Demo.loginReq "http://l:8529") {| Jwt := "tokB" |}
                (Demo.statsReq "http://l:8529")
                (Demo2.unreadable 302 "http: read on closed response body")
                (Some (OtherError "stopped after 10 redirects")))
      as [Hread _].
    + eexists _, _. split_and!; [eexists; split_and!|..]; reflexivity.
    + reflexivity.
    + reflexivity.
    + apply Hread. reflexivity.
  - destruct (stats_errors_returned (Demo.ready []) (Demo2.url "http://m:8529")
                Demo.client0 (Demo.loginReq "http://m:8529") {| Jwt := "tokB" |}
                (Demo.statsReq "http://m:8529")
                {| StatusCode := 200;
                   Body := inl (list_byte_of_string "<html>") |}
                None)
      as [_ Hdecode].
    + eexists _, _. split_and!; [eexists; split_and!|..]; reflexivity.
    + reflexivity.
    + reflexivity.
    + apply (Hdecode (list_byte_of_string "<html>")); reflexivity.
Defined.

(** Server n serves the statistics with status 503: the fetch succeeds. *)
Lemma fetch_succeeds_at_n :
  ∃ w, gatherURL (Demo.ready []) (Demo2.url "http://n:8529") = (w, Returns None) ∧
       length (records w) = 3%nat.
Proof.
  assert (∃ stats,
            json_Unmarshal dec_ArangoStats
              (Demo.text (Demo.statsDoc Demo.sixCounts)) zero_ArangoStats
              = inl stats ∧
            length (Counts (RequestTime (Client stats))) = 6%nat)
    as (stats & Hs & Hlen) by (eexists; split; vm_compute; reflexivity).
  destruct (fetch_succeeds (Demo.ready []) (Demo2.url "http://n:8529")
              Demo.client0 (Demo.loginReq "http://n:8529") {| Jwt := "tokB" |}
              (Demo.statsReq "http://n:8529") 503 None
              (Demo.text (Demo.statsDoc Demo.sixCounts)) stats)
    as (cf & _ & Hg).
  - eexists _, _. split_and!; [eexists; split_and!|..]; reflexivity.
  - reflexivity.
  - reflexivity.
  - exact Hs.
  - rewrite Hlen. lia.
  - eexists. split; [exact Hg|]. reflexivity.
Defined.

End Concrete2.
